(** * Telugu text classification service: a model of [Backend/app.py]

    The service keeps a process-wide dictionary [models] of loaded artifacts,
    filled once by [load_models], and answers [POST /classify] by averaging
    the probability vectors of up to three classifier artifacts, with a
    keyword heuristic when no vector is usable.

    Modelling choices.
    - A Python [str] is the list of its Unicode code points ([pystr]).
      Dictionary keys of the registry are the literals of the source and are
      written as Rocq strings.
    - A Python [float] is an exact rational ([Q]); its equality is [Qeq].
      Rounding of binary64 arithmetic is outside the model.
    - A numpy array is the list of its entries; only one-dimensional arrays
      are considered.
    - Exceptions are values of [result]; the handler code runs in the small
      monad [M], which also records the calls to the vectorizer and the
      lines printed by the per-model handler.
    - [str.strip] and [str.lower] are Python built-ins: the whitespace test
      and the lowering function are parameters of the model. *)

From Stdlib Require Import QArith Lqa.
From stdpp Require Import gmap strings list fin_maps.

Abbreviation pystr := (list N).

(** An ASCII literal of the source as a sequence of code points. *)
Definition py (s : string) : pystr :=
  (λ a, Ascii.N_of_ascii a) <$> String.list_ascii_of_string s.

(** ** Exceptions, results and the handler monad *)

Inductive exn :=
  | HTTPException (status_code : nat)
  | PyException.

Inductive result (A : Type) :=
  | Raise (e : exn)
  | Return (a : A).
Arguments Raise {A} e.
Arguments Return {A} a.

Inductive event :=
  | EvTransform (text : pystr)      (* models['vectorizer'].transform([text]) *)
  | EvPrint (model_name : string)   (* print(f"Error with {model_name}: {e}") *)
  | EvTraceback.                    (* print(f"Full error: {e}"); print_exc() *)

Definition M (A : Type) : Type := (list event * result A)%type.

Definition ret {A} (a : A) : M A := ([], Return a).
Definition raise {A} (e : exn) : M A := ([], Raise e).
Definition emit (ev : event) : M unit := ([ev], Return tt).
Definition lift {A} (r : result A) : M A := ([], r).

Definition bind {A B} (m : M A) (f : A → M B) : M B :=
  match m with
  | (tr, Raise e) => (tr, Raise e)
  | (tr, Return a) => let '(tr', r) := f a in (tr ++ tr', r)
  end.

(** [try: body except e: handler e] *)
Definition try_except {A} (body : M A) (handler : exn → M A) : M A :=
  match body with
  | (tr, Raise e) => let '(tr', r) := handler e in (tr ++ tr', r)
  | (tr, Return a) => (tr, Return a)
  end.

#[global] Instance M_ret : MRet M := @ret.
#[global] Instance M_bind : MBind M := λ A B f m, bind m f.

Definition trace {A} (m : M A) : list event := fst m.
Definition outcome {A} (m : M A) : result A := snd m.

(** The HTTP status a finished handler is answered with. *)
Definition status {A} (m : M A) : nat :=
  match outcome m with
  | Return _ => 200
  | Raise (HTTPException c) => c
  | Raise PyException => 500
  end.

(** ** Static configuration *)

Record category_info := { telugu : pystr; english : pystr }.

Definition CATEGORIES : list (pystr * category_info) :=
  [ (py "business",
      {| telugu := [0xC35; 0xC4D; 0xC2F; 0xC3E; 0xC2A; 0xC3E; 0xC30; 0xC02]%N;
         english := py "Business" |});
    (py "editorial",
      {| telugu := [0xC38; 0xC02; 0xC2A; 0xC3E; 0xC26; 0xC15; 0xC40; 0xC2F; 0xC02]%N;
         english := py "Editorial" |});
    (py "entertainment",
      {| telugu := [0xC35; 0xC3F; 0xC28; 0xC4B; 0xC26; 0xC02]%N;
         english := py "Entertainment" |});
    (py "nation",
      {| telugu := [0xC1C; 0xC3E; 0xC24; 0xC40; 0xC2F; 0xC02]%N;
         english := py "Nation" |});
    (py "sports",
      {| telugu := [0xC15; 0xC4D; 0xC30; 0xC40; 0xC21; 0xC32; 0xC41]%N;
         english := py "Sports" |}) ].

(** [CATEGORIES.keys()] *)
Definition CATEGORIES_keys : list pystr := fst <$> CATEGORIES.

(** [CATEGORIES.get(category, default)] *)
Definition CATEGORIES_get (category : pystr) (default : category_info)
  : category_info :=
  match list_find (λ kv, kv.1 = category) CATEGORIES with
  | Some (_, kv) => kv.2
  | None => default
  end.

(** Keyword lists of the fallback, in the order of the source. *)
Definition sports_words : list pystr :=
  [ [0xC15; 0xC4D; 0xC30; 0xC40; 0xC21];
    [0xC1C; 0xC1F; 0xC4D; 0xC1F; 0xC41];
    [0xC17; 0xC46; 0xC32; 0xC3F; 0xC1A];
    [0xC06; 0xC21];
    [0xC2E; 0xC4D; 0xC2F; 0xC3E; 0xC1A; 0xC4D] ]%N.

Definition entertainment_words : list pystr :=
  [ [0xC38; 0xC3F; 0xC28; 0xC3F; 0xC2E; 0xC3E];
    [0xC28; 0xC1F; 0xC41; 0xC21; 0xC41];
    [0xC28; 0xC1F; 0xC3F];
    [0xC1A; 0xC3F; 0xC24; 0xC4D; 0xC30; 0xC02];
    [0xC35; 0xC3F; 0xC28; 0xC4B; 0xC26] ]%N.

Definition business_words : list pystr :=
  [ [0xC35; 0xC4D; 0xC2F; 0xC3E; 0xC2A; 0xC3E; 0xC30];
    [0xC2C; 0xC3F; 0xC1C; 0xC3F; 0xC28; 0xC46; 0xC38; 0xC4D];
    [0xC15; 0xC02; 0xC2A; 0xC46; 0xC28; 0xC40];
    [0xC2E; 0xC3E; 0xC30; 0xC4D; 0xC15; 0xC46; 0xC1F; 0xC4D] ]%N.

Definition editorial_words : list pystr :=
  [ [0xC38; 0xC02; 0xC2A; 0xC3E; 0xC26; 0xC15];
    [0xC05; 0xC2D; 0xC3F; 0xC2A; 0xC4D; 0xC30; 0xC3E; 0xC2F] ]%N.

(** ** String primitives *)

(** [w in s] at the start of [s]. *)
Fixpoint startswith (w s : pystr) : bool :=
  match w, s with
  | [], _ => true
  | _ :: _, [] => false
  | c :: w', d :: s' => (c =? d)%N && startswith w' s'
  end.

(** [w in s] for strings: [w] occurs as a contiguous block of [s]. *)
Fixpoint contains (w s : pystr) : bool :=
  startswith w s ||
  match s with
  | [] => false
  | _ :: s' => contains w s'
  end.

(** [any(word in text for word in words)] *)
Definition any_in (words : list pystr) (text : pystr) : bool :=
  existsb (λ word, contains word text) words.

(** ** Arrays *)

(** [np.ones(n) / n] *)
Definition uniform (n : nat) : list Q :=
  repeat (1 / inject_Z (Z.of_nat n))%Q n.

(** [np.mean(rows, axis=0)] for a non-empty list of rows of one length:
    the rows are added from the first to the last, then divided by their
    number. *)
Definition np_mean (rows : list (list Q)) : list Q :=
  match rows with
  | [] => []
  | r :: rs =>
      (λ s, s / inject_Z (Z.of_nat (length rows)))%Q
        <$> foldl (zip_with Qplus) r rs
  end.

(** [np.argmax]: the first index holding the largest entry; it raises on an
    empty array. *)
Fixpoint argmax_from (best_i : nat) (best : Q) (i : nat) (l : list Q) : nat :=
  match l with
  | [] => best_i
  | x :: l' =>
      if Qle_bool x best then argmax_from best_i best (S i) l'
      else argmax_from i x (S i) l'
  end.

Definition np_argmax (l : list Q) : result nat :=
  match l with
  | [] => Raise PyException
  | x :: l' => Return (argmax_from 0 x 1 l')
  end.

(** [{k: float(v) for k, v in pairs}]: a later pair overrides an earlier one
    with the same key. *)
Definition dict_of (pairs : list (pystr * Q)) : gmap pystr Q :=
  foldl (λ d kv, <[kv.1 := kv.2]> d) ∅ pairs.

Record ClassificationResult := {
  category_english : pystr;
  category_telugu : pystr;
  confidence : Q;
  all_probabilities : gmap pystr Q
}.

(** The last lines of [classify_text]: the display names of the category,
    or the raw code for an unknown one, and the response object. *)
Definition make_result (category : pystr) (confidence : Q)
    (all_probs : gmap pystr Q) : ClassificationResult :=
  let category_info :=
    CATEGORIES_get category {| english := category; telugu := category |} in
  {| category_english := english category_info;
     category_telugu := telugu category_info;
     confidence := confidence;
     all_probabilities := all_probs |}.

Record status_response := {
  message : option string;
  status_text : string;
  models_loaded : bool
}.

Section Service.

(** What [vectorizer.transform] returns; the handler only passes it on. *)
Variable feature_vector : Type.

(** [str.isspace] on one code point, and [str.lower]. *)
Variable isspace : N → bool.
Variable lower : pystr → pystr.

Fixpoint lstrip (s : pystr) : pystr :=
  match s with
  | [] => []
  | c :: s' => if isspace c then lstrip s' else s
  end.

Definition rstrip (s : pystr) : pystr := reverse (lstrip (reverse s)).

(** [s.strip()] *)
Definition strip (s : pystr) : pystr := rstrip (lstrip s).

(** ** Artifacts *)

(** What a model hands back for one text. *)
Inductive prediction :=
  | PArray (v : list Q)    (* an np.ndarray with entries v *)
  | PShaped (v : list Q)   (* not an ndarray, with .shape = (len(v),) *)
  | POther.                (* neither: a list, None, a scalar, ... *)

(** An object stored in [models], by the capability the handler looks for
    first. *)
Inductive pyobj :=
  | Vectorizer (transform : pystr → result feature_vector)
  | LabelEncoder (classes_ : list pystr)
  | Predictor (predict_proba : feature_vector → result prediction)
  | NdArray (a : list Q)
  | Callable (call : feature_vector → result prediction)
  | Inert.

(** [model(text_vector)] *)
Definition call_object (model : pyobj) (text_vector : feature_vector)
  : result prediction :=
  match model with
  | Callable call => call text_vector
  | _ => Raise PyException
  end.

(** [models['label_encoder'].classes_] *)
Definition label_encoder_classes (models : gmap string pyobj)
  : result (list pystr) :=
  match models !! "label_encoder" with
  | Some (LabelEncoder classes) => Return classes
  | _ => Raise PyException
  end.

(** [predict_proba(text_vector)[0]] is the value of [predict_proba] here. *)
Definition get_predictions (models : gmap string pyobj) (model : pyobj)
    (text_vector : feature_vector) : result prediction :=
  match model with
  | Predictor predict_proba => predict_proba text_vector
  | NdArray a => Return (PArray a)
  | _ =>
      match call_object model text_vector with
      | Return pred => Return pred
      | Raise _ =>
          match label_encoder_classes models with
          | Return classes => Return (PArray (uniform (length classes)))
          | Raise e => Raise e
          end
      end
  end.

(** ** Start-up *)

Definition load_models (joblib_load : string → result pyobj)
    (models : gmap string pyobj) : gmap string pyobj :=
  match joblib_load "models/tfidf_vectorizer.pkl" with
  | Raise _ => models
  | Return o =>
  let models := <["vectorizer" := o]> models in
  match joblib_load "models/label_encoder.pkl" with
  | Raise _ => models
  | Return o =>
  let models := <["label_encoder" := o]> models in
  match joblib_load "models/muril_model.pkl" with
  | Raise _ => models
  | Return o =>
  let models := <["muril" := o]> models in
  match joblib_load "models/bilstm_model.pkl" with
  | Raise _ => models
  | Return o =>
  let models := <["bilstm" := o]> models in
  match joblib_load "models/lgb_model.pkl" with
  | Raise _ => models
  | Return o => <["lgb" := o]> models
  end end end end end.

(** The registry after start-up: [models = {}] and one run of
    [load_models]. *)
Definition registry_after_startup (joblib_load : string → result pyobj)
  : gmap string pyobj :=
  load_models joblib_load ∅.

(** ** Status endpoints *)

Definition root (models : gmap string pyobj) : status_response :=
  {| message := Some "Telugu Text Classification API";
     status_text := "active";
     models_loaded := bool_decide (2 ≤ size models) |}.

Definition health_check (models : gmap string pyobj) : status_response :=
  {| message := None;
     status_text := "healthy";
     models_loaded := bool_decide (2 ≤ size models) |}.

(** ** The classification endpoint *)

Definition has_key (k : string) (models : gmap string pyobj) : bool :=
  bool_decide (is_Some (models !! k)).

Definition is_ndarray (pred : prediction) : bool :=
  match pred with PArray _ => true | _ => false end.

Definition has_shape (pred : prediction) : bool :=
  match pred with PArray _ | PShaped _ => true | POther => false end.

Definition entries (pred : prediction) : list Q :=
  match pred with PArray v | PShaped v => v | POther => [] end.

(** One round of the loop over the model names. *)
Definition attempt (models : gmap string pyobj) (text_vector : feature_vector)
    (num_classes : nat) (model_name : string)
    (all_predictions : list (list Q)) : M (list (list Q)) :=
  match models !! model_name with
  | None => mret all_predictions
  | Some model =>
      try_except
        (pred ← lift (get_predictions models model text_vector);
         if is_ndarray pred && bool_decide (length (entries pred) = num_classes)
         then mret (all_predictions ++ [entries pred])
         else if has_shape pred
                 && bool_decide (length (entries pred) = num_classes)
         then mret (all_predictions ++ [entries pred])
         else mret all_predictions)
        (λ e, _ ← emit (EvPrint model_name); mret all_predictions)
  end.

Fixpoint for_models (models : gmap string pyobj) (text_vector : feature_vector)
    (num_classes : nat) (names : list string)
    (all_predictions : list (list Q)) : M (list (list Q)) :=
  match names with
  | [] => mret all_predictions
  | model_name :: names' =>
      all_predictions ←
        attempt models text_vector num_classes model_name all_predictions;
      for_models models text_vector num_classes names' all_predictions
  end.

Definition model_names : list string := ["muril"; "bilstm"; "lgb"].

(** The keyword chain of the fallback. *)
Definition keyword_match (text_lower : pystr) : pystr * Q :=
  if any_in sports_words text_lower then (py "sports", 0.85%Q)
  else if any_in entertainment_words text_lower
  then (py "entertainment", 0.80%Q)
  else if any_in business_words text_lower then (py "business", 0.75%Q)
  else if any_in editorial_words text_lower then (py "editorial", 0.70%Q)
  else (py "nation", 0.65%Q).

Definition fallback (text : pystr) : pystr * Q * gmap pystr Q :=
  let text_lower := lower text in
  let '(category, confidence) := keyword_match text_lower in
  let all_probs := dict_of ((λ cat, (cat, 0.05%Q)) <$> CATEGORIES_keys) in
  let all_probs := <[category := confidence]> all_probs in
  (category, confidence, all_probs).

(** [models['label_encoder'].inverse_transform([predicted_idx])[0]] *)
Definition inverse_transform (models : gmap string pyobj) (idx : nat)
  : result pystr :=
  match label_encoder_classes models with
  | Return classes =>
      match classes !! idx with
      | Some label => Return label
      | None => Raise PyException
      end
  | Raise e => Raise e
  end.

(** [ensemble_probs[predicted_idx]] *)
Definition getitem (a : list Q) (idx : nat) : result Q :=
  match a !! idx with
  | Some x => Return x
  | None => Raise PyException
  end.

Definition ensemble (models : gmap string pyobj)
    (all_predictions : list (list Q)) : M (pystr * Q * gmap pystr Q) :=
  let ensemble_probs := np_mean all_predictions in
  predicted_idx ← lift (np_argmax ensemble_probs);
  category ← lift (inverse_transform models predicted_idx);
  confidence ← lift (getitem ensemble_probs predicted_idx);
  category_list ← lift (label_encoder_classes models);
  mret (category, confidence, dict_of (zip category_list ensemble_probs)).

(** The body of [classify_text], inside the outer [try]. *)
Definition classify_body (models : gmap string pyobj) (input_text : pystr)
  : M ClassificationResult :=
  _ ← (if negb (has_key "vectorizer" models)
          || negb (has_key "label_encoder" models)
       then raise (HTTPException 503) else mret tt);
  let text := strip input_text in
  _ ← (match text with
       | [] => raise (HTTPException 400)
       | _ => mret tt
       end);
  text_vector ←
    (match models !! "vectorizer" with
     | Some (Vectorizer transform) =>
         _ ← emit (EvTransform text); lift (transform text)
     | _ => raise PyException
     end);
  classes ← lift (label_encoder_classes models);
  let num_classes := length classes in
  all_predictions ← for_models models text_vector num_classes model_names [];
  '(category, confidence, all_probs) ←
    (match all_predictions with
     | [] => mret (fallback text)
     | _ => ensemble models all_predictions
     end);
  mret (make_result category confidence all_probs).

Definition classify_text (models : gmap string pyobj) (input_text : pystr)
  : M ClassificationResult :=
  try_except (classify_body models input_text)
    (λ e, match e with
          | HTTPException _ => raise e
          | PyException => _ ← emit EvTraceback; raise (HTTPException 500)
          end).

End Service.

Arguments Vectorizer {feature_vector} transform.
Arguments LabelEncoder {feature_vector} classes_.
Arguments Predictor {feature_vector} predict_proba.
Arguments NdArray {feature_vector} a.
Arguments Callable {feature_vector} call.
Arguments Inert {feature_vector}.
Arguments call_object {feature_vector} model text_vector.
Arguments label_encoder_classes {feature_vector} models.
Arguments get_predictions {feature_vector} models model text_vector.
Arguments load_models {feature_vector} joblib_load models.
Arguments registry_after_startup {feature_vector} joblib_load.
Arguments root {feature_vector} models.
Arguments health_check {feature_vector} models.
Arguments has_key {feature_vector} k models.
Arguments attempt {feature_vector} models text_vector num_classes model_name
  all_predictions.
Arguments for_models {feature_vector} models text_vector num_classes names
  all_predictions.
Arguments inverse_transform {feature_vector} models idx.
Arguments ensemble {feature_vector} models all_predictions.
Arguments classify_body {feature_vector} isspace lower models input_text.
Arguments classify_text {feature_vector} isspace lower models input_text.

(** ** Concrete string primitives

    The code points CPython treats as whitespace in [str.strip], and a
    lowering that agrees with [str.lower] on texts made of ASCII and Telugu
    characters. They instantiate the parameters in the examples. *)

Definition py_isspace (c : N) : bool :=
  ((0x09 <=? c) && (c <=? 0x0D) || (0x1C <=? c) && (c <=? 0x20)
   || (c =? 0x85) || (c =? 0xA0) || (c =? 0x1680)
   || (0x2000 <=? c) && (c <=? 0x200A)
   || (c =? 0x2028) || (c =? 0x2029) || (c =? 0x202F) || (c =? 0x205F)
   || (c =? 0x3000))%N.

Definition lower_ascii (s : pystr) : pystr :=
  (λ c, if (0x41 <=? c) && (c <=? 0x5A) then c + 0x20 else c)%N <$> s.

(** ** Notions used in the statements *)

(** [w] occurs in [s] as a substring. *)
Definition substring (w s : pystr) : Prop :=
  ∃ pre post, s = pre ++ w ++ post.

(** Some word of the list occurs in the text. *)
Definition mentions (words : list pystr) (text : pystr) : Prop :=
  ∃ w, w ∈ words ∧ substring w text.

(** A probability. *)
Definition in01 (p : Q) : Prop := (0 <= p)%Q ∧ (p <= 1)%Q.

(** [idx] is the first position of [l] holding its largest entry [m]. *)
Definition first_max (l : list Q) (idx : nat) (m : Q) : Prop :=
  l !! idx = Some m
  ∧ (∀ j y, l !! j = Some y → (y <= m)%Q)
  ∧ (∀ j y, j < idx → l !! j = Some y → (y < m)%Q).

(** A sum of [k] probabilities lies between 0 and [k]. *)
Definition upto (k : nat) (s : Q) : Prop :=
  (0 <= s)%Q ∧ (s <= inject_Z (Z.of_nat k))%Q.

Section Notions.

Context {feature_vector : Type}.
Implicit Types (models : gmap string (pyobj feature_vector)).

(** The registry is ready: the two keys [classify_text] insists on. *)
Definition ready models : Prop :=
  is_Some (models !! "vectorizer") ∧ is_Some (models !! "label_encoder").

(** What the round for [model_name] adds to [all_predictions]. *)
Definition contribution models (text_vector : feature_vector)
    (num_classes : nat) (model_name : string) : list (list Q) :=
  match models !! model_name with
  | None => []
  | Some model =>
      match get_predictions models model text_vector with
      | Return pred =>
          if has_shape pred
             && bool_decide (length (entries pred) = num_classes)
          then [entries pred] else []
      | Raise _ => []
      end
  end.

(** What the round for [model_name] prints. *)
Definition printed models (text_vector : feature_vector)
    (model_name : string) : list event :=
  match models !! model_name with
  | None => []
  | Some model =>
      match get_predictions models model text_vector with
      | Return _ => []
      | Raise _ => [EvPrint model_name]
      end
  end.

(** The vectors the loop of [classify_text] collects. *)
Definition collected models (text_vector : feature_vector)
    (num_classes : nat) : list (list Q) :=
  concat (contribution models text_vector num_classes <$> model_names).

(** The round for [model_name] is skipped: it leaves [all_predictions] as
    it found it. *)
Definition skipped models (text_vector : feature_vector)
    (num_classes : nat) (model_name : string) : Prop :=
  ∀ acc, outcome (attempt models text_vector num_classes model_name acc)
         = Return acc.

End Notions.

(** ** Example registries *)

Definition five_classes : list pystr := CATEGORIES_keys.

Definition base_registry : gmap string (pyobj unit) :=
  <["label_encoder" := LabelEncoder five_classes]>
    (<["vectorizer" := Vectorizer (λ _, Return tt)]> ∅).

(** Every classifier artifact is an object without [predict_proba] that
    cannot be called. *)
Definition inert_registry : gmap string (pyobj unit) :=
  <["muril" := Inert]> base_registry.

(** A stored array that is not a probability vector. *)
Definition skewed_registry : gmap string (pyobj unit) :=
  <["muril" := NdArray [2; 0; 0; 0; 0]%Q]> base_registry.

(** The two mock classifiers of the ensemble example. *)
Definition mock_registry : gmap string (pyobj unit) :=
  <["bilstm" := Predictor (λ _, Return (PArray [0.2; 0.2; 0.2; 0.2; 0.2]%Q))]>
    (<["muril" := NdArray [0.1; 0.1; 0.1; 0.1; 0.6]%Q]> base_registry).

(** A model whose [predict_proba] raises, next to a usable one. *)
Definition failing_registry : gmap string (pyobj unit) :=
  <["lgb" := Predictor (λ _, Raise PyException)]>
    (<["muril" := NdArray [0.1; 0.1; 0.1; 0.1; 0.6]%Q]> base_registry).

(** The answer of a finished handler, when there is one. *)
Definition the_answer (m : M ClassificationResult) : ClassificationResult :=
  match outcome m with
  | Return r => r
  | Raise _ => make_result [] 0 ∅
  end.

(** A text with a sports keyword and an entertainment keyword, sent to a
    registry without models: the sports list is tried first. *)
Definition cricket_film : pystr :=
  ([0x20; 0xC06; 0xC21; 0x20; 0xC38; 0xC3F; 0xC28; 0xC3F; 0xC2E; 0xC3E;
    0x20; 0x41])%N.

(** The endpoint with the concrete string primitives. *)
Abbreviation classify := (classify_text py_isspace lower_ascii).

(** ** Notions used in the further properties *)

(** The sum of the entries of an array. *)
Definition qsum (l : list Q) : Q := foldr Qplus 0%Q l.

(** The answer of the ensemble branch for a class list and the collected
    vectors, when the branch does not raise. *)
Definition ensemble_answer (classes : list pystr) (preds : list (list Q))
  : option ClassificationResult :=
  let ensemble_probs := np_mean preds in
  match np_argmax ensemble_probs with
  | Raise _ => None
  | Return idx =>
      match classes !! idx, ensemble_probs !! idx with
      | Some category, Some confidence =>
          Some (make_result category confidence
                  (dict_of (zip classes ensemble_probs)))
      | _, _ => None
      end
  end.

(** The answer past the model loop: the fallback when nothing was
    collected, the ensemble otherwise. *)
Definition answer_past_loop (lower : pystr → pystr) (classes : list pystr)
    (text : pystr) (preds : list (list Q)) : option ClassificationResult :=
  match preds with
  | [] =>
      let '(category, confidence, all_probs) := fallback lower text in
      Some (make_result category confidence all_probs)
  | _ => ensemble_answer classes preds
  end.

(** The registry holds nothing but stored arrays and objects that are
    neither predictors nor callable under the three model names. *)
Definition text_blind {feature_vector : Type} (o : pyobj feature_vector)
  : Prop :=
  match o with
  | Predictor _ | Callable _ => False
  | _ => True
  end.

(** The texts handed to the vectorizer during a run. *)
Definition transform_calls (tr : list event) : list pystr :=
  omap (λ ev, match ev with EvTransform text => Some text | _ => None end) tr.

(** An artifact store with the vectorizer and the label encoder only: the
    load of every classifier file fails. *)
Definition two_file_store (path : string) : result (pyobj unit) :=
  if String.eqb path "models/tfidf_vectorizer.pkl"
  then Return (Vectorizer (λ _, Return tt))
  else if String.eqb path "models/label_encoder.pkl"
  then Return (LabelEncoder five_classes)
  else Raise PyException.

(** * Facts *)

(** ** The handler monad *)

Lemma bind_unfold {A B} (m : M A) (f : A → M B) : m ≫= f = bind m f.
Proof. reflexivity. Qed.

Lemma bind_return {A B} (tr : list event) (a : A) (f : A → M B) :
  bind (tr, Return a) f = (tr ++ trace (f a), outcome (f a)).
Proof. unfold bind, trace, outcome. by destruct (f a). Qed.

Lemma bind_raise {A B} (tr : list event) (e : exn) (f : A → M B) :
  bind (tr, Raise e) f = (tr, Raise e).
Proof. reflexivity. Qed.

Lemma outcome_bind {A B} (m : M A) (f : A → M B) :
  outcome (bind m f) =
  match outcome m with
  | Raise e => Raise e
  | Return a => outcome (f a)
  end.
Proof. destruct m as [tr [e|a]]; [done|]. by rewrite bind_return. Qed.

Lemma trace_bind {A B} (m : M A) (f : A → M B) :
  trace (bind m f) =
  trace m ++ match outcome m with
             | Raise _ => []
             | Return a => trace (f a)
             end.
Proof.
  destruct m as [tr [e|a]].
  - simpl. by rewrite app_nil_r.
  - by rewrite bind_return.
Qed.

Lemma M_eta {A} (m : M A) : m = (trace m, outcome m).
Proof. by destruct m. Qed.

(** ** Strings *)

Lemma startswith_spec w s : startswith w s = true ↔ ∃ post, s = w ++ post.
Proof.
  revert s. induction w as [|c w IH]; intros s; simpl.
  - split; [eauto | done].
  - destruct s as [|d s].
    + split; [done | intros [post ?]; discriminate].
    + rewrite andb_true_iff, N.eqb_eq, IH. split.
      * intros [-> [post ->]]. eauto.
      * intros [post [= -> ->]]. eauto.
Qed.

Lemma contains_spec w s : contains w s = true ↔ substring w s.
Proof.
  unfold substring. induction s as [|d s IH].
  - simpl. rewrite orb_false_r, startswith_spec. split.
    + intros [post ->]. by exists [], post.
    + intros [[|? pre] [post E]]; [eauto | discriminate].
  - cbn [contains]. rewrite orb_true_iff, startswith_spec, IH. split.
    + intros [[post ->] | (pre & post & ->)].
      * by exists [], post.
      * by exists (d :: pre), post.
    + intros [[|c pre] [post E]].
      * left. eauto.
      * right. injection E as -> ->. eauto.
Qed.

Lemma any_in_spec words text : any_in words text = true ↔ mentions words text.
Proof.
  unfold any_in, mentions. rewrite existsb_exists. split.
  - intros (w & Hin & Hc). exists w.
    by rewrite list_elem_of_In, <- contains_spec.
  - intros (w & Hin & Hc). exists w.
    by rewrite <- list_elem_of_In, contains_spec.
Qed.

Lemma any_in_false words text :
  any_in words text = false ↔ ¬ mentions words text.
Proof. rewrite <- any_in_spec. by destruct (any_in words text). Qed.

Section StripFacts.

Variable isspace : N → bool.

Lemma lstrip_blank s : forallb isspace s = true → lstrip isspace s = [].
Proof.
  induction s as [|c s IH]; simpl; [done|].
  rewrite andb_true_iff. intros [-> ?]. auto.
Qed.

Lemma strip_blank s : forallb isspace s = true → strip isspace s = [].
Proof. intros H. unfold strip, rstrip. by rewrite (lstrip_blank _ H). Qed.

Lemma lstrip_nil_blank s : lstrip isspace s = [] → forallb isspace s = true.
Proof.
  induction s as [|c s IH]; simpl; [done|].
  destruct (isspace c); [auto | done].
Qed.

Lemma lstrip_head s c s' : lstrip isspace s = c :: s' → isspace c = false.
Proof.
  induction s as [|d s IH]; simpl; [done|].
  destruct (isspace d) eqn:E; [auto|]. by intros [= -> ->].
Qed.

(** [strip] returns the empty string exactly on the texts made of
    whitespace only. *)
Lemma strip_nil_iff s : strip isspace s = [] ↔ forallb isspace s = true.
Proof.
  split; [|apply strip_blank].
  unfold strip, rstrip. intros H.
  apply lstrip_nil_blank.
  destruct (lstrip isspace s) as [|c s'] eqn:E; [done|].
  apply (f_equal reverse) in H. rewrite reverse_involutive in H.
  change (reverse []) with (@nil N) in H.
  apply lstrip_nil_blank in H.
  rewrite forallb_forall in H.
  pose proof (lstrip_head _ _ _ E) as Hc.
  specialize (H c). rewrite <- list_elem_of_In, elem_of_reverse in H.
  rewrite H in Hc; [done | by left].
Qed.

End StripFacts.

(** ** Dictionaries built from pairs *)

Section DictFacts.

Implicit Types (d : gmap pystr Q) (pairs : list (pystr * Q)).

Local Abbreviation put := (λ d (kv : pystr * Q), <[kv.1 := kv.2]> d).

Lemma foldl_put_lookup pairs d k v :
  foldl put d pairs !! k = Some v → (k, v) ∈ pairs ∨ d !! k = Some v.
Proof.
  revert d. induction pairs as [|[k' v'] pairs IH]; intros d; simpl; [auto|].
  intros [H|H]%IH.
  - left. by right.
  - simpl in H.
    apply lookup_insert_Some in H as [[-> ->]|[_ H]]; [left; by left | auto].
Qed.

Lemma foldl_put_fresh pairs d k :
  k ∉ pairs.*1 → foldl put d pairs !! k = d !! k.
Proof.
  revert d. induction pairs as [|[k' v'] pairs IH]; intros d; simpl; [done|].
  rewrite not_elem_of_cons. intros [Hne Hk].
  rewrite IH by done. simpl. by rewrite lookup_insert_ne.
Qed.

Lemma foldl_put_member pairs d k v :
  NoDup pairs.*1 → (k, v) ∈ pairs → foldl put d pairs !! k = Some v.
Proof.
  revert d. induction pairs as [|[k' v'] pairs IH]; intros d; simpl.
  - by intros _ ?%elem_of_nil.
  - rewrite NoDup_cons. intros [Hk' Hnd] [[= -> ->]|Hin]%elem_of_cons.
    + rewrite foldl_put_fresh by done. simpl.
      by rewrite lookup_insert_eq.
    + by apply IH.
Qed.

Lemma foldl_put_dom pairs d :
  dom (foldl put d pairs) = dom d ∪ list_to_set pairs.*1.
Proof.
  revert d. induction pairs as [|[k' v'] pairs IH]; intros d; simpl.
  - by rewrite (right_id_L ∅ (∪)).
  - rewrite IH. simpl. rewrite dom_insert_L.
    by rewrite (comm_L (∪) {[k']} (dom d)), (assoc_L (∪)).
Qed.

Lemma dict_of_lookup pairs k v : dict_of pairs !! k = Some v → (k, v) ∈ pairs.
Proof.
  intros [H|H]%foldl_put_lookup; [done|]. by rewrite lookup_empty in H.
Qed.

Lemma dict_of_member pairs k v :
  NoDup pairs.*1 → (k, v) ∈ pairs → dict_of pairs !! k = Some v.
Proof. apply foldl_put_member. Qed.

Lemma dict_of_dom pairs : dom (dict_of pairs) = list_to_set pairs.*1.
Proof.
  unfold dict_of. rewrite (foldl_put_dom pairs ∅), dom_empty_L.
  by rewrite (left_id_L ∅ (∪)).
Qed.

End DictFacts.

(** ** Arrays *)

Lemma argmax_from_first_max l : ∀ pre best_i best,
  first_max pre best_i best →
  ∃ m, first_max (pre ++ l) (argmax_from best_i best (length pre) l) m.
Proof.
  induction l as [|x l IH]; intros pre bi b (Hb & Hle & Hlt); simpl.
  - exists b. by rewrite app_nil_r.
  - replace (pre ++ x :: l) with ((pre ++ [x]) ++ l)
      by (by rewrite <- app_assoc).
    replace (S (length pre)) with (length (pre ++ [x]))
      by (rewrite length_app; simpl; lia).
    destruct (Qle_bool x b) eqn:E; apply IH.
    + apply Qle_bool_iff in E. split; [|split].
      * by apply lookup_app_l_Some.
      * intros j y [Hj|[_ Hj]]%lookup_app_Some; [eauto|].
        destruct (j - length pre); [|done]. by injection Hj as <-.
      * intros j y Hlt' [Hj|[Hge _]]%lookup_app_Some; [eauto|].
        apply lookup_lt_Some in Hb. lia.
    + assert (b < x)%Q as Hbx.
      { apply Qnot_le_lt. intros H%Qle_bool_iff. congruence. }
      split; [|split].
      * rewrite lookup_app_r by lia. by rewrite Nat.sub_diag.
      * intros j y [Hj|[_ Hj]]%lookup_app_Some.
        -- apply Qlt_le_weak. eapply Qle_lt_trans; eauto.
        -- destruct (j - length pre); [|done]. injection Hj as <-.
           apply Qle_refl.
      * intros j y Hlt' Hj. rewrite lookup_app_l in Hj by done.
        eapply Qle_lt_trans; eauto.
Qed.

Lemma np_argmax_first_max l idx :
  np_argmax l = Return idx → ∃ m, first_max l idx m.
Proof.
  destruct l as [|x l]; [done|]. intros [= <-].
  apply (argmax_from_first_max l [x] 0 x). split; [done|split].
  - intros [|j] y; [|done]. intros [= <-]. apply Qle_refl.
  - intros j y Hj. lia.
Qed.

Lemma np_argmax_nonempty l : l ≠ [] → ∃ idx, np_argmax l = Return idx.
Proof. destruct l; [done|]. simpl. eauto. Qed.

Lemma foldl_zip_length (rs : list (list Q)) : ∀ (r : list Q) n,
  length r = n → Forall (λ v, length v = n) rs →
  length (foldl (zip_with Qplus) r rs) = n.
Proof.
  induction rs as [|r' rs IH]; intros r n Hr Hrs; simpl; [done|].
  apply Forall_cons in Hrs as [Hr' Hrs]. apply IH; [|done].
  rewrite length_zip_with. lia.
Qed.

Lemma np_mean_length rows n :
  rows ≠ [] → Forall (λ v, length v = n) rows → length (np_mean rows) = n.
Proof.
  destruct rows as [|r rs]; [done|]. intros _ [Hr Hrs]%Forall_cons.
  unfold np_mean. rewrite length_fmap. by apply foldl_zip_length.
Qed.

Lemma zip_plus_upto k (r r' : list Q) :
  Forall (upto k) r → Forall in01 r' →
  Forall (upto (S k)) (zip_with Qplus r r').
Proof.
  intros Hr. revert r'. induction Hr as [|s r [Hs0 Hsk] Hr IH]; intros r' Hr'.
  - constructor.
  - destruct Hr' as [|p r' [Hp0 Hp1] Hr']; simpl; constructor; [|auto].
    unfold upto. rewrite Nat2Z.inj_succ, <- Z.add_1_r, inject_Z_plus.
    change (inject_Z 1) with 1%Q. split; lra.
Qed.

Lemma foldl_zip_upto (rs : list (list Q)) : ∀ k (r : list Q),
  Forall (upto k) r → Forall (Forall in01) rs →
  Forall (upto (k + length rs)) (foldl (zip_with Qplus) r rs).
Proof.
  induction rs as [|r' rs IH]; intros k r Hr Hrs; simpl.
  - by rewrite Nat.add_0_r.
  - apply Forall_cons in Hrs as [Hr' Hrs].
    replace (k + S (length rs)) with (S k + length rs) by lia.
    apply IH; [|done]. by apply zip_plus_upto.
Qed.

(** The mean of probability vectors is a probability vector. *)
Lemma np_mean_in01 rows :
  Forall (Forall in01) rows → Forall in01 (np_mean rows).
Proof.
  destruct rows as [|r rs]; [constructor|]. intros [Hr Hrs]%Forall_cons.
  unfold np_mean. apply Forall_fmap.
  assert (Forall (upto 1) r) as Hr1.
  { eapply Forall_impl; [exact Hr|]. intros p [? ?]. by split. }
  pose proof (foldl_zip_upto rs 1 r Hr1 Hrs) as H.
  eapply Forall_impl; [exact H|]. intros s [Hs0 Hsk]. simpl in *.
  set (k := inject_Z (Z.of_nat (S (length rs)))) in *.
  assert (0 < k)%Q as Hk.
  { unfold k. rewrite Nat2Z.inj_succ, <- Z.add_1_r, inject_Z_plus.
    change (inject_Z 1) with 1%Q.
    assert (0 <= inject_Z (Z.of_nat (length rs)))%Q; [|lra].
    change 0%Q with (inject_Z 0). rewrite <- Zle_Qle. lia. }
  split.
  - apply Qle_shift_div_l; [done|]. lra.
  - apply Qle_shift_div_r; [done|]. lra.
Qed.

(** ** The loop over the models *)

Section LoopFacts.

Context {feature_vector : Type}.
Implicit Types (models : gmap string (pyobj feature_vector)).

Lemma attempt_eq models (x : feature_vector) n name acc :
  attempt models x n name acc
  = (printed models x name, Return (acc ++ contribution models x n name)).
Proof.
  unfold attempt, printed, contribution.
  destruct (models !! name) as [model|]; [|by rewrite app_nil_r].
  destruct (get_predictions models model x) as [e|pred]; simpl.
  - by rewrite app_nil_r.
  - destruct pred as [v|v|]; simpl;
      try case_bool_decide; simpl; by rewrite ?app_nil_r.
Qed.

Lemma for_models_eq models (x : feature_vector) n names acc :
  for_models models x n names acc
  = (concat (printed models x <$> names),
     Return (acc ++ concat (contribution models x n <$> names))).
Proof.
  revert acc. induction names as [|name names IH]; intros acc; simpl.
  - by rewrite app_nil_r.
  - rewrite bind_unfold, attempt_eq, bind_return, IH. simpl.
    by rewrite app_assoc.
Qed.

Lemma skipped_iff models (x : feature_vector) n name :
  skipped models x n name ↔ contribution models x n name = [].
Proof.
  unfold skipped. setoid_rewrite attempt_eq. simpl. split.
  - intros H. specialize (H []). by injection H.
  - intros ->. intros acc. by rewrite app_nil_r.
Qed.

(** Every collected vector has as many entries as there are classes. *)
Lemma contribution_length models (x : feature_vector) n name v :
  v ∈ contribution models x n name → length v = n.
Proof.
  unfold contribution.
  destruct (models !! name) as [model|]; [|by intros ?%elem_of_nil].
  destruct (get_predictions models model x) as [e|pred];
    [by intros ?%elem_of_nil|].
  destruct (has_shape pred); simpl; [|by intros ?%elem_of_nil].
  case_bool_decide; [|by intros ?%elem_of_nil].
  by intros ->%list_elem_of_singleton.
Qed.

Lemma collected_length models (x : feature_vector) n :
  Forall (λ v, length v = n) (collected models x n).
Proof.
  unfold collected, model_names. simpl.
  rewrite !Forall_app. repeat split; try by apply Forall_nil.
  all: apply Forall_forall; intros v; apply contribution_length.
Qed.

End LoopFacts.

(** ** The endpoint, case by case *)

Section EndpointFacts.

Context {feature_vector : Type} (isspace : N → bool) (lower : pystr → pystr).
Implicit Types (models : gmap string (pyobj feature_vector)).

Local Arguments for_models : simpl never.
Local Arguments fallback : simpl never.
Local Arguments ensemble : simpl never.
Local Arguments np_mean : simpl never.
Local Arguments make_result : simpl never.

Lemma has_key_true k models : has_key k models = true ↔ is_Some (models !! k).
Proof. unfold has_key. by rewrite bool_decide_eq_true. Qed.

Lemma not_ready_keys models :
  ¬ ready models ↔
  negb (has_key "vectorizer" models) || negb (has_key "label_encoder" models)
  = true.
Proof.
  unfold ready. rewrite orb_true_iff, !negb_true_iff.
  rewrite <- !not_true_iff_false, !has_key_true.
  destruct (decide (is_Some (models !! "vectorizer"))); tauto.
Qed.

Lemma ready_keys models :
  ready models →
  negb (has_key "vectorizer" models) || negb (has_key "label_encoder" models)
  = false.
Proof.
  intros H. apply not_true_iff_false. by rewrite <- not_ready_keys; intros [].
Qed.

(** The first guard: an incomplete registry. *)
Lemma classify_not_ready models input :
  ¬ ready models →
  classify_text isspace lower models input = ([], Raise (HTTPException 503)).
Proof.
  intros H%not_ready_keys. unfold classify_text, classify_body.
  by rewrite H.
Qed.

(** The second guard: nothing left of the text after [strip]. *)
Lemma classify_blank models input :
  ready models → strip isspace input = [] →
  classify_text isspace lower models input = ([], Raise (HTTPException 400)).
Proof.
  intros H%ready_keys Hs. unfold classify_text, classify_body.
  by rewrite H, Hs.
Qed.

(** Past the guards, with a working vectorizer and a label encoder. *)
Lemma classify_fallback models input transform classes x :
  models !! "vectorizer" = Some (Vectorizer transform) →
  models !! "label_encoder" = Some (LabelEncoder classes) →
  strip isspace input ≠ [] →
  transform (strip isspace input) = Return x →
  collected models x (length classes) = [] →
  classify_text isspace lower models input
  = (EvTransform (strip isspace input)
       :: concat (printed models x <$> model_names),
     Return (let '(category, confidence, all_probs) :=
               fallback lower (strip isspace input) in
             make_result category confidence all_probs)).
Proof.
  intros Hv Hl Hs Ht Hc.
  assert (ready models) as Hr%ready_keys by (split; eauto).
  unfold classify_text, classify_body. rewrite Hr.
  destruct (strip isspace input) as [|c text] eqn:E; [done|].
  rewrite Hv. unfold label_encoder_classes. rewrite Hl.
  rewrite !bind_unfold. simpl. rewrite Ht. simpl.
  rewrite for_models_eq. fold (collected models x (length classes)).
  rewrite Hc. simpl.
  destruct (fallback lower (c :: text)) as [[category conf] probs]. simpl.
  by rewrite !app_nil_r.
Qed.

Lemma classify_ensemble models input transform classes x :
  models !! "vectorizer" = Some (Vectorizer transform) →
  models !! "label_encoder" = Some (LabelEncoder classes) →
  strip isspace input ≠ [] →
  transform (strip isspace input) = Return x →
  collected models x (length classes) ≠ [] →
  outcome (classify_text isspace lower models input)
  = let ensemble_probs := np_mean (collected models x (length classes)) in
    match np_argmax ensemble_probs with
    | Raise _ => Raise (HTTPException 500)
    | Return idx =>
        match classes !! idx, ensemble_probs !! idx with
        | Some category, Some confidence =>
            Return (make_result category confidence
                      (dict_of (zip classes ensemble_probs)))
        | _, _ => Raise (HTTPException 500)
        end
    end.
Proof.
  intros Hv Hl Hs Ht Hc.
  assert (ready models) as Hr%ready_keys by (split; eauto).
  unfold classify_text, classify_body. rewrite Hr.
  destruct (strip isspace input) as [|c text] eqn:E; [done|].
  rewrite Hv. unfold label_encoder_classes. rewrite Hl.
  rewrite !bind_unfold. simpl. rewrite Ht. simpl.
  rewrite for_models_eq. fold (collected models x (length classes)).
  simpl.
  destruct (collected models x (length classes)) as [|v preds] eqn:Ec;
    [done|].
  unfold ensemble, inverse_transform, getitem, label_encoder_classes.
  rewrite Hl. rewrite !bind_unfold.
  unfold np_argmax.
  destruct (np_mean (v :: preds)) as [|p probs]; simpl; [done|].
  generalize (argmax_from 0 p 1 probs). intros idx.
  destruct (classes !! idx) as [category|]; simpl; [|done].
  destruct ((p :: probs) !! idx) as [conf|]; simpl; done.
Qed.

(** A 200 answer was produced past both guards, by a vectorizer that
    accepted the stripped text and with a label encoder in place. *)
Lemma classify_ok_inv models input r :
  outcome (classify_text isspace lower models input) = Return r →
  ∃ transform classes x,
    models !! "vectorizer" = Some (Vectorizer transform)
    ∧ models !! "label_encoder" = Some (LabelEncoder classes)
    ∧ strip isspace input ≠ []
    ∧ transform (strip isspace input) = Return x.
Proof.
  intros H.
  destruct (decide (ready models)) as [Hr|Hr];
    [|by rewrite (classify_not_ready _ _ Hr) in H].
  destruct (strip isspace input) as [|c text] eqn:E;
    [by rewrite (classify_blank _ _ Hr E) in H|].
  pose proof (ready_keys _ Hr) as Hk.
  unfold classify_text, classify_body in H. rewrite Hk, E in H.
  destruct (models !! "vectorizer") as [[transform| | | | |]|] eqn:Hv;
    try done.
  rewrite !bind_unfold in H. simpl in H.
  destruct (transform (c :: text)) as [e|x] eqn:Ht; [by destruct e|].
  simpl in H. unfold label_encoder_classes in H.
  destruct (models !! "label_encoder") as [[|classes| | | |]|] eqn:Hl;
    try done.
  by exists transform, classes, x.
Qed.

End EndpointFacts.

Section RegistryFacts.

Context {feature_vector : Type}.
Implicit Types (models : gmap string (pyobj feature_vector)).

Lemma get_predictions_delete models name model (x : feature_vector) :
  name ≠ "label_encoder" →
  get_predictions (delete name models) model x
  = get_predictions models model x.
Proof.
  intros Hne. unfold get_predictions, label_encoder_classes.
  by rewrite lookup_delete_ne.
Qed.

Lemma contribution_delete models name name' (x : feature_vector) n :
  name ≠ "label_encoder" → name ≠ name' →
  contribution (delete name models) x n name' = contribution models x n name'.
Proof.
  intros Hl Hne. unfold contribution. rewrite lookup_delete_ne by done.
  destruct (models !! name'); [|done]. by rewrite get_predictions_delete.
Qed.

Lemma contribution_deleted models name (x : feature_vector) n :
  contribution (delete name models) x n name = [].
Proof. unfold contribution. by rewrite lookup_delete_eq. Qed.

Lemma model_names_not_encoder name :
  name ∈ model_names → name ≠ "label_encoder" ∧ name ≠ "vectorizer".
Proof.
  unfold model_names. rewrite !elem_of_cons, elem_of_nil.
  intros [->|[->|[->|[]]]]; by split.
Qed.

(** Removing a model whose round adds nothing leaves the collected vectors
    as they were. *)
Lemma collected_delete models name (x : feature_vector) n :
  name ∈ model_names → contribution models x n name = [] →
  collected (delete name models) x n = collected models x n.
Proof.
  intros Hin Hc. destruct (model_names_not_encoder _ Hin) as [Hne _].
  unfold collected. f_equal. apply list_eq. intros i.
  rewrite !list_lookup_fmap. destruct (model_names !! i) as [name'|]; [|done].
  simpl. f_equal. destruct (decide (name = name')) as [<-|Hd].
  - by rewrite contribution_deleted, Hc.
  - by apply contribution_delete.
Qed.

End RegistryFacts.


(** ** The fallback *)

Section FallbackFacts.

Variable lower : pystr → pystr.

Lemma keyword_match_cases text_lower :
  keyword_match text_lower ∈
    [ (py "sports", 0.85%Q); (py "entertainment", 0.80%Q);
      (py "business", 0.75%Q); (py "editorial", 0.70%Q);
      (py "nation", 0.65%Q) ].
Proof.
  unfold keyword_match.
  repeat (case_match; [repeat first [by left | right]|]).
  repeat first [by left | right].
Qed.

(** The matched category is a configured one and its confidence is a
    probability above the residual 0.05. *)
Lemma keyword_match_range text_lower category confidence :
  keyword_match text_lower = (category, confidence) →
  category ∈ CATEGORIES_keys
  ∧ (0.05 < confidence)%Q ∧ (confidence <= 1)%Q.
Proof.
  intros E. pose proof (keyword_match_cases text_lower) as H.
  rewrite E in H. clear E.
  repeat (apply elem_of_cons in H as [[= -> ->]|H];
          [split; [compute_done|split; [reflexivity|by intros ?]]|]).
  by apply elem_of_nil in H.
Qed.

Lemma fallback_eq text :
  fallback lower text
  = ((keyword_match (lower text)).1, (keyword_match (lower text)).2,
     <[(keyword_match (lower text)).1 := (keyword_match (lower text)).2]>
       (dict_of ((λ cat, (cat, 0.05%Q)) <$> CATEGORIES_keys))).
Proof. unfold fallback. by destruct (keyword_match (lower text)). Qed.

Lemma residual_lookup c p :
  dict_of ((λ cat, (cat, 0.05%Q)) <$> CATEGORIES_keys) !! c = Some p →
  c ∈ CATEGORIES_keys ∧ p = 0.05%Q.
Proof.
  intros H%dict_of_lookup.
  by apply list_elem_of_fmap in H as (cat & [= -> ->] & Hin).
Qed.

Lemma residual_member c :
  c ∈ CATEGORIES_keys →
  dict_of ((λ cat, (cat, 0.05%Q)) <$> CATEGORIES_keys) !! c = Some 0.05%Q.
Proof.
  intros Hin. apply dict_of_member; [compute_done|].
  apply list_elem_of_fmap. eauto.
Qed.

Lemma residual_dom :
  dom (dict_of ((λ cat, (cat, 0.05%Q)) <$> CATEGORIES_keys))
  = list_to_set CATEGORIES_keys.
Proof.
  by rewrite dict_of_dom.
Qed.

End FallbackFacts.
(** * The claims *)

Section Claims.

Context {feature_vector : Type} (isspace : N → bool) (lower : pystr → pystr).
Implicit Types (models : gmap string (pyobj feature_vector)).

(** C1, as amended. In a 200 answer the confidence is the largest value of
    [all_probabilities] and is the value stored for the returned category.
    In the fallback no other category has that value. In the ensemble the
    returned category is the first class of the label encoder, in the order
    of its class list, that reaches the largest value; later classes may
    reach it too. The class list of the label encoder is taken to be free
    of repetitions, as [LabelEncoder.classes_] is. *)
Theorem confidence_is_largest_probability models input transform classes
    (x : feature_vector) r :
  models !! "vectorizer" = Some (Vectorizer transform) →
  models !! "label_encoder" = Some (LabelEncoder classes) →
  transform (strip isspace input) = Return x →
  NoDup classes →
  outcome (classify_text isspace lower models input) = Return r →
  ∃ category,
    category_english r
    = english (CATEGORIES_get category
                 {| english := category; telugu := category |})
    ∧ category_telugu r
      = telugu (CATEGORIES_get category
                  {| english := category; telugu := category |})
    ∧ all_probabilities r !! category = Some (confidence r)
    ∧ (∀ c p, all_probabilities r !! c = Some p → (p <= confidence r)%Q)
    ∧ (collected models x (length classes) = [] →
       ∀ c p, all_probabilities r !! c = Some p →
              (p == confidence r)%Q → c = category)
    ∧ (collected models x (length classes) ≠ [] →
       ∃ idx, classes !! idx = Some category
              ∧ ∀ j c p, j < idx → classes !! j = Some c →
                         all_probabilities r !! c = Some p →
                         (p < confidence r)%Q).
Proof.
  intros Hv Hl Ht Hnd Hr.
  destruct (classify_ok_inv _ _ _ _ _ Hr)
    as (transform' & classes' & x' & Hv' & Hl' & Hs & _).
  clear transform' classes' x' Hv' Hl'.
  destruct (decide (collected models x (length classes) = [])) as [Hc|Hc].
  - (* the fallback *)
    rewrite (classify_fallback _ _ _ _ _ _ _ Hv Hl Hs Ht Hc) in Hr.
    rewrite fallback_eq in Hr.
    destruct (keyword_match (lower (strip isspace input)))
      as [category conf] eqn:Ek.
    simpl in Hr. injection Hr as <-.
    destruct (keyword_match_range _ _ _ Ek) as (Hin & Hlo & Hhi).
    exists category. simpl. repeat apply conj; try done.
    + apply lookup_insert_eq.
    + intros c p [[<- <-]|[_ [_ ->]%residual_lookup]]%lookup_insert_Some.
      * apply Qle_refl.
      * by apply Qlt_le_weak.
    + intros _ c p [[<- <-]|[_ [_ ->]%residual_lookup]]%lookup_insert_Some;
        [done|].
      intros Heq. rewrite Heq in Hlo. by apply Qlt_irrefl in Hlo.
  - (* the ensemble *)
    rewrite (classify_ensemble _ _ _ _ _ _ _ Hv Hl Hs Ht Hc) in Hr.
    simpl in Hr.
    pose proof (collected_length models x (length classes)) as Hlen.
    apply (np_mean_length _ _ Hc) in Hlen.
    set (probs := np_mean (collected models x (length classes))) in *.
    destruct (np_argmax probs) as [e|idx] eqn:Ea; [done|].
    destruct (classes !! idx) as [category|] eqn:Ecat; [|done].
    destruct (probs !! idx) as [conf|] eqn:Econf; [|done].
    injection Hr as <-.
    destruct (np_argmax_first_max _ _ Ea) as (m & Hm & Hle & Hlt).
    assert (m = conf) as -> by congruence.
    assert (NoDup (zip classes probs).*1) as Hnd'.
    { rewrite fst_zip by lia. done. }
    assert (∀ c p, dict_of (zip classes probs) !! c = Some p →
                   ∃ j, classes !! j = Some c ∧ probs !! j = Some p) as Hinv.
    { intros c p Hcp%dict_of_lookup.
      apply list_elem_of_lookup in Hcp as [j Hj]. exists j.
      apply lookup_zip_with_Some in Hj as (c' & p' & [= -> ->] & ? & ?).
      done. }
    exists category. simpl. repeat apply conj; try done.
    + apply dict_of_member; [done|].
      apply list_elem_of_lookup. exists idx.
      apply lookup_zip_with_Some. eauto.
    + intros c p (j & _ & Hj)%Hinv. eauto.
    + intros _. exists idx. split; [done|].
      intros j c p Hji Hjc (j' & Hj'c & Hj'p)%Hinv.
      assert (j' = j) as -> by exact (NoDup_lookup _ _ _ _ Hnd Hj'c Hjc).
      eauto.
Qed.

(** C2, as amended. In a 200 answer of the fallback the keys of
    [all_probabilities] are the five configured categories and every value
    is a probability. In a 200 answer of the ensemble the same holds
    provided the class list of the label encoder consists of the five
    configured categories and every collected vector has its entries
    between 0 and 1: the keys are those of the class list and the values are
    the means of the collected entries, as they come. *)
Theorem probabilities_cover_categories models input transform classes
    (x : feature_vector) r :
  models !! "vectorizer" = Some (Vectorizer transform) →
  models !! "label_encoder" = Some (LabelEncoder classes) →
  transform (strip isspace input) = Return x →
  outcome (classify_text isspace lower models input) = Return r →
  (collected models x (length classes) ≠ [] →
   (list_to_set classes : gset pystr) = list_to_set CATEGORIES_keys) →
  Forall (Forall in01) (collected models x (length classes)) →
  dom (all_probabilities r) = list_to_set CATEGORIES_keys
  ∧ map_Forall (λ _ p, in01 p) (all_probabilities r).
Proof.
  intros Hv Hl Ht Hr Hkeys Hvals.
  destruct (classify_ok_inv _ _ _ _ _ Hr)
    as (transform' & classes' & x' & Hv' & Hl' & Hs & _).
  clear transform' classes' x' Hv' Hl'.
  destruct (decide (collected models x (length classes) = [])) as [Hc|Hc].
  - (* the fallback *)
    rewrite (classify_fallback _ _ _ _ _ _ _ Hv Hl Hs Ht Hc) in Hr.
    rewrite fallback_eq in Hr.
    destruct (keyword_match (lower (strip isspace input)))
      as [category conf] eqn:Ek.
    cbn [outcome fst snd] in Hr. injection Hr as <-.
    destruct (keyword_match_range _ _ _ Ek) as (Hin & Hlo & Hhi).
    cbn [all_probabilities make_result]. split.
    + rewrite dom_insert_L.
      trans ({[category]} ∪ list_to_set CATEGORIES_keys : gset pystr);
        [f_equal; apply residual_dom|].
      apply (elem_of_list_to_set (C := gset pystr)) in Hin.
      apply subseteq_union_1_L. by apply singleton_subseteq_l.
    + intros c p [[<- <-]|[_ [_ ->]%residual_lookup]]%lookup_insert_Some.
      * split; [|done]. apply Qlt_le_weak. by eapply Qlt_trans; [|exact Hlo].
      * by split.
  - (* the ensemble *)
    rewrite (classify_ensemble _ _ _ _ _ _ _ Hv Hl Hs Ht Hc) in Hr.
    simpl in Hr.
    pose proof (collected_length models x (length classes)) as Hlen.
    apply (np_mean_length _ _ Hc) in Hlen.
    apply np_mean_in01 in Hvals.
    set (probs := np_mean (collected models x (length classes))) in *.
    destruct (np_argmax probs) as [e|idx]; [done|].
    destruct (classes !! idx) as [category|]; [|done].
    destruct (probs !! idx) as [conf|]; [|done].
    injection Hr as <-. cbn [all_probabilities make_result]. split.
    + rewrite dict_of_dom, fst_zip by lia. auto.
    + intros c p Hcp%dict_of_lookup.
      apply elem_of_zip_r in Hcp.
      by eapply Forall_forall in Hvals.
Qed.

(** C3. When the loop collects no vector, the answer is that of the
    fallback. The keyword lists are tried on the lowered text in the order
    sports, entertainment, business, editorial, with nation as the default;
    the matched category gets 0.85, 0.80, 0.75, 0.70 or 0.65, every other
    configured category gets 0.05 and no further key is present. The answer
    is a function of the text alone: any other registry that collects no
    vector answers the same text with the same result. *)
Theorem fallback_when_nothing_collected models input transform classes
    (x : feature_vector) :
  models !! "vectorizer" = Some (Vectorizer transform) →
  models !! "label_encoder" = Some (LabelEncoder classes) →
  strip isspace input ≠ [] →
  transform (strip isspace input) = Return x →
  collected models x (length classes) = [] →
  let text_lower := lower (strip isspace input) in
  ∃ category confidence all_probs,
    fallback lower (strip isspace input) = (category, confidence, all_probs)
    ∧ outcome (classify_text isspace lower models input)
      = Return (make_result category confidence all_probs)
    ∧ (mentions sports_words text_lower →
       category = py "sports" ∧ confidence = 0.85%Q)
    ∧ (¬ mentions sports_words text_lower →
       mentions entertainment_words text_lower →
       category = py "entertainment" ∧ confidence = 0.80%Q)
    ∧ (¬ mentions sports_words text_lower →
       ¬ mentions entertainment_words text_lower →
       mentions business_words text_lower →
       category = py "business" ∧ confidence = 0.75%Q)
    ∧ (¬ mentions sports_words text_lower →
       ¬ mentions entertainment_words text_lower →
       ¬ mentions business_words text_lower →
       mentions editorial_words text_lower →
       category = py "editorial" ∧ confidence = 0.70%Q)
    ∧ (¬ mentions sports_words text_lower →
       ¬ mentions entertainment_words text_lower →
       ¬ mentions business_words text_lower →
       ¬ mentions editorial_words text_lower →
       category = py "nation" ∧ confidence = 0.65%Q)
    ∧ all_probs !! category = Some confidence
    ∧ (∀ c, c ∈ CATEGORIES_keys → c ≠ category →
            all_probs !! c = Some 0.05%Q)
    ∧ (∀ c, c ∉ CATEGORIES_keys → all_probs !! c = None)
    ∧ (∀ (models' : gmap string (pyobj feature_vector)) transform' classes'
         x',
         models' !! "vectorizer" = Some (Vectorizer transform') →
         models' !! "label_encoder" = Some (LabelEncoder classes') →
         transform' (strip isspace input) = Return x' →
         collected models' x' (length classes') = [] →
         outcome (classify_text isspace lower models' input)
         = outcome (classify_text isspace lower models input)).
Proof.
  intros Hv Hl Hs Ht Hc tl.
  pose proof (classify_fallback isspace lower _ _ _ _ _ Hv Hl Hs Ht Hc) as Hr.
  assert (∀ (models' : gmap string (pyobj feature_vector)) transform' classes'
            x',
            models' !! "vectorizer" = Some (Vectorizer transform') →
            models' !! "label_encoder" = Some (LabelEncoder classes') →
            transform' (strip isspace input) = Return x' →
            collected models' x' (length classes') = [] →
            outcome (classify_text isspace lower models' input)
            = outcome (classify_text isspace lower models input)) as Hdet.
  { intros models' transform' classes' x' Hv' Hl' Ht' Hc'.
    rewrite (classify_fallback isspace lower _ _ _ _ _ Hv' Hl' Hs Ht' Hc').
    by rewrite Hr. }
  rewrite fallback_eq in Hr. fold tl in Hr.
  destruct (keyword_match tl) as [category conf] eqn:Ek. simpl in Hr.
  eexists category, conf, _.
  split; [by rewrite fallback_eq; fold tl; rewrite Ek|].
  split; [by rewrite Hr|].
  pose proof (keyword_match_range _ _ _ Ek) as (Hin & _ & _).
  unfold keyword_match in Ek.
  repeat apply conj.
  - intros H%any_in_spec. rewrite H in Ek. by injection Ek as <- <-.
  - intros H1%any_in_false H2%any_in_spec. rewrite H1, H2 in Ek.
    by injection Ek as <- <-.
  - intros H1%any_in_false H2%any_in_false H3%any_in_spec.
    rewrite H1, H2, H3 in Ek. by injection Ek as <- <-.
  - intros H1%any_in_false H2%any_in_false H3%any_in_false H4%any_in_spec.
    rewrite H1, H2, H3, H4 in Ek. by injection Ek as <- <-.
  - intros H1%any_in_false H2%any_in_false H3%any_in_false H4%any_in_false.
    rewrite H1, H2, H3, H4 in Ek. by injection Ek as <- <-.
  - apply lookup_insert_eq.
  - intros c Hc' Hne. rewrite lookup_insert_ne by done.
    by apply residual_member.
  - intros c Hc'. rewrite lookup_insert_ne by (by intros <-).
    destruct (dict_of _ !! c) as [p|] eqn:E; [|done].
    by apply residual_lookup in E as [? _].
  - exact Hdet.
Qed.

(** C4, as amended. A round of the model loop adds nothing to
    [all_predictions] when getting the prediction raises (a [predict_proba]
    that raises is caught by the loop and printed) or when the value is not
    an array with as many entries as there are classes; the vectors of the
    ensemble are then those the registry without this model yields. The
    failure of a call is not among these cases: [get_predictions] answers
    it with the uniform vector. *)
Theorem failed_round_is_skipped models name model (x : feature_vector) n :
  models !! name = Some model →
  (∃ e, get_predictions models model x = Raise e)
  ∨ (∃ pred, get_predictions models model x = Return pred
             ∧ (has_shape pred = false ∨ length (entries pred) ≠ n)) →
  skipped models x n name
  ∧ (name ∈ model_names →
     collected models x n = collected (delete name models) x n).
Proof.
  intros Hm Hfail.
  assert (contribution models x n name = []) as Hc.
  { unfold contribution. rewrite Hm.
    destruct Hfail as [[e ->]|(pred & -> & [->|Hlen])]; [done..|].
    rewrite bool_decide_eq_false_2 by done. by rewrite andb_false_r. }
  split; [by apply skipped_iff|].
  intros Hin. symmetry. by apply collected_delete.
Qed.

(** C5, as amended. A text that is empty or made of whitespace only never
    reaches the vectorizer, and is answered with 400 when the registry holds
    both the vectorizer and the label encoder. *)
Theorem blank_text_is_rejected models input :
  forallb isspace input = true →
  (∀ text, EvTransform text ∉ trace (classify_text isspace lower models input))
  ∧ (ready models →
     status (classify_text isspace lower models input) = 400).
Proof.
  intros Hb%strip_blank.
  destruct (decide (ready models)) as [Hr|Hr].
  - rewrite (classify_blank _ _ _ _ Hr Hb). split; [|done].
    intros text. apply not_elem_of_nil.
  - rewrite (classify_not_ready _ _ _ _ Hr). split; [|done].
    intros text. apply not_elem_of_nil.
Qed.

(** C6. While the registry lacks the vectorizer or the label encoder,
    [/classify] answers 503 whatever the text is. *)
Theorem incomplete_registry_gives_503 models input :
  models !! "vectorizer" = None ∨ models !! "label_encoder" = None →
  status (classify_text isspace lower models input) = 503.
Proof.
  intros H. rewrite classify_not_ready; [done|].
  intros [[o Ho] [o' Ho']]. destruct H; congruence.
Qed.

(** C7. When the loop collects exactly the vectors [0.1,0.1,0.1,0.1,0.6]
    and [0.2,0.2,0.2,0.2,0.2] for a label encoder of five classes, their
    mean is [0.15,0.15,0.15,0.15,0.4] entry by entry, its arg-max is index
    4, and the answer names the fifth class of the label encoder with
    confidence 0.4 and the means as [all_probabilities]. *)
Theorem two_model_ensemble models input transform c0 c1 c2 c3 c4
    (x : feature_vector) :
  models !! "vectorizer" = Some (Vectorizer transform) →
  models !! "label_encoder" = Some (LabelEncoder [c0; c1; c2; c3; c4]) →
  strip isspace input ≠ [] →
  transform (strip isspace input) = Return x →
  collected models x 5
    = [[0.1; 0.1; 0.1; 0.1; 0.6]; [0.2; 0.2; 0.2; 0.2; 0.2]]%Q
  ∨ collected models x 5
    = [[0.2; 0.2; 0.2; 0.2; 0.2]; [0.1; 0.1; 0.1; 0.1; 0.6]]%Q →
  let ensemble_probs := np_mean (collected models x 5) in
  Forall2 Qeq ensemble_probs [0.15; 0.15; 0.15; 0.15; 0.4]%Q
  ∧ np_argmax ensemble_probs = Return 4
  ∧ ∃ r, outcome (classify_text isspace lower models input) = Return r
         ∧ (confidence r == 0.4)%Q
         ∧ r = make_result c4 (confidence r)
                 (dict_of (zip [c0; c1; c2; c3; c4] ensemble_probs)).
Proof.
  intros Hv Hl Hs Ht Hc probs.
  assert (collected models x (length [c0; c1; c2; c3; c4]) ≠ []) as Hne.
  { simpl. by destruct Hc as [-> | ->]. }
  pose proof (classify_ensemble isspace lower _ _ _ _ _ Hv Hl Hs Ht Hne)
    as Hr.
  simpl in Hr. fold probs in Hr. rewrite Hr. clear Hr.
  subst probs. destruct Hc as [-> | ->].
  all: split; [by repeat constructor|]; split; [done|].
  all: eexists; split; [reflexivity|]; split; done.
Qed.

(** C8. After start-up, [models_loaded] of [GET /] and of [GET /health] is
    true exactly when the registry holds both the vectorizer and the label
    encoder. *)
Theorem models_loaded_iff_ready
    (joblib_load : string → result (pyobj feature_vector)) :
  let models := registry_after_startup joblib_load in
  (models_loaded (root models) = true ↔ ready models)
  ∧ (models_loaded (health_check models) = true ↔ ready models).
Proof.
  unfold registry_after_startup, load_models, root, health_check, ready.
  simpl.
  destruct (joblib_load "models/tfidf_vectorizer.pkl") as [?|o1].
  { rewrite bool_decide_eq_true, map_size_empty, lookup_empty.
    split; (split; [lia | by intros [[? ?] _]]). }
  destruct (joblib_load "models/label_encoder.pkl") as [?|o2].
  { rewrite bool_decide_eq_true.
    rewrite map_size_insert_None, map_size_empty by apply lookup_empty.
    split; (split; [lia | intros [_ [? H]]; by simplify_map_eq]). }
  assert (∀ m : gmap string (pyobj feature_vector),
            m !! "vectorizer" = Some o1 → m !! "label_encoder" = Some o2 →
            bool_decide (2 ≤ size m) = true
            ↔ is_Some (m !! "vectorizer") ∧ is_Some (m !! "label_encoder"))
    as Hboth.
  { intros m H1 H2. rewrite bool_decide_eq_true, H1, H2.
    split; [eauto|intros _].
    rewrite <- (insert_id m _ _ H1), <- (insert_delete_eq m).
    rewrite map_size_insert_None by apply lookup_delete_eq.
    assert (delete "vectorizer" m !! "label_encoder" = Some o2) as H3
      by (by rewrite lookup_delete_ne).
    rewrite <- (insert_id _ _ _ H3), <- insert_delete_eq.
    rewrite map_size_insert_None by apply lookup_delete_eq. lia. }
  destruct (joblib_load "models/muril_model.pkl") as [?|o3];
    [|destruct (joblib_load "models/bilstm_model.pkl") as [?|o4];
      [|destruct (joblib_load "models/lgb_model.pkl") as [?|o5]]].
  all: split; apply Hboth; by simplify_map_eq.
Qed.

(** C9. The readiness check comes before the check of the text: an empty or
    whitespace-only text sent while the registry lacks the vectorizer or the
    label encoder is answered with 503, not with 400, and nothing is printed
    or vectorized. *)
Theorem readiness_precedes_text_check models input :
  models !! "vectorizer" = None ∨ models !! "label_encoder" = None →
  forallb isspace input = true →
  classify_text isspace lower models input = ([], Raise (HTTPException 503))
  ∧ status (classify_text isspace lower models input) ≠ 400.
Proof.
  intros H _.
  assert (¬ ready models) as Hr.
  { intros [[o Ho] [o' Ho']]. destruct H; congruence. }
  rewrite (classify_not_ready _ _ _ _ Hr). by split.
Qed.

(** C10. An artifact without [predict_proba] that is not an array and whose
    call raises makes [get_predictions] return the uniform vector: one entry
    [1/num_classes] per class of the label encoder. The vector passes the
    length check of the loop, so the round appends it to [all_predictions]
    and it is among the vectors that are averaged. *)
Theorem failed_call_yields_uniform_vector models model (x : feature_vector)
    classes e :
  models !! "label_encoder" = Some (LabelEncoder classes) →
  (∀ predict_proba, model ≠ Predictor predict_proba) →
  (∀ a, model ≠ NdArray a) →
  call_object model x = Raise e →
  let num_classes := length classes in
  get_predictions models model x = Return (PArray (uniform num_classes))
  ∧ length (uniform num_classes) = num_classes
  ∧ Forall (λ p, p = (1 / inject_Z (Z.of_nat num_classes))%Q)
      (uniform num_classes)
  ∧ ∀ name, models !! name = Some model →
      (∀ acc, outcome (attempt models x num_classes name acc)
              = Return (acc ++ [uniform num_classes]))
      ∧ (name ∈ model_names →
         uniform num_classes ∈ collected models x num_classes).
Proof.
  intros Hl Hp Ha Hcall n.
  assert (get_predictions models model x = Return (PArray (uniform n))) as Hg.
  { unfold get_predictions. rewrite Hcall. unfold label_encoder_classes.
    rewrite Hl. destruct model; try done.
    - by destruct (Hp predict_proba).
    - by destruct (Ha a). }
  assert (length (uniform n) = n) as Hlen by apply repeat_length.
  split; [done|]. split; [done|]. split.
  { unfold uniform. apply Forall_forall. intros p Hin.
    by apply list_elem_of_In, repeat_spec in Hin. }
  intros name Hm.
  assert (contribution models x n name = [uniform n]) as Hc.
  { unfold contribution. rewrite Hm, Hg. simpl.
    by rewrite bool_decide_eq_true_2. }
  split.
  - intros acc. by rewrite attempt_eq, Hc.
  - unfold collected. intros Hin.
    apply list_elem_of_In, in_concat. exists [uniform n]. split.
    + apply list_elem_of_In, list_elem_of_fmap. eauto.
    + by left.
Qed.

End Claims.

(** * Examples

    The statements above at concrete registries, with CPython's whitespace
    table and a lowering of ASCII letters as the string primitives. *)

(** ** Evaluations *)

Example strip_example :
  strip py_isspace [0x20; 0x09; 0x68; 0x20; 0x69; 0x0A; 0xA0]%N
  = [0x68; 0x20; 0x69]%N.
Proof. reflexivity. Qed.

Example contains_example :
  contains (py "bc") (py "abcd") = true
  ∧ contains (py "bd") (py "abcd") = false
  ∧ contains [] (py "abcd") = true.
Proof. by vm_compute. Qed.

Example np_argmax_takes_first_of_equal :
  np_argmax [0.2; 0.5; 0.1; 0.5]%Q = Return 1.
Proof. reflexivity. Qed.

Example np_mean_example :
  Forall2 Qeq (np_mean [[1; 0]; [0; 0]; [0.5; 0.3]]%Q) [0.5; 0.1]%Q.
Proof. by repeat constructor. Qed.

Example unknown_label_is_its_own_display :
  category_english (make_result (py "weather") 1 ∅) = py "weather"
  ∧ category_telugu (make_result (py "weather") 1 ∅) = py "weather".
Proof. by vm_compute. Qed.

Example cricket_film_is_sports :
  category_english (the_answer (classify base_registry cricket_film))
  = py "Sports"
  ∧ confidence (the_answer (classify base_registry cricket_film)) = 0.85%Q
  ∧ trace (classify base_registry cricket_film)
    = [EvTransform (strip py_isspace cricket_film)].
Proof. by vm_compute. Qed.

(** A label encoder without classes and an empty stored array: the array
    passes the length check, the mean is empty and [np.argmax] raises. *)
Example empty_ensemble_gives_500 :
  classify (<["muril" := NdArray []]>
              (<["label_encoder" := LabelEncoder []]>
                 (<["vectorizer" := Vectorizer (λ _, Return tt)]> ∅)))
    (py "a")
  = ([EvTransform (py "a"); EvTraceback], Raise (HTTPException 500)).
Proof. by vm_compute. Qed.

(** A [predict_proba] that raises is printed and skipped; the stored array
    alone decides. *)
Example failing_model_is_printed :
  trace (classify failing_registry (py "a"))
  = [EvTransform (py "a"); EvPrint "lgb"]
  ∧ confidence (the_answer (classify failing_registry (py "a"))) = 0.6%Q.
Proof. by vm_compute. Qed.

(** ** The claims at concrete inputs *)

(** A registry whose only model is an object that cannot be called: the
    uniform vector is the ensemble, and all five categories share the
    largest probability. *)
Lemma uniform_ensemble_has_ties :
  ∃ r, outcome (classify inert_registry (py "a")) = Return r
       ∧ confidence r = (1 # 5)%Q
       ∧ ¬ ∃ category, ∀ c p,
             all_probabilities r !! c = Some p →
             (p == confidence r)%Q → c = category.
Proof.
  exists (the_answer (classify inert_registry (py "a"))).
  split; [by vm_compute|]. split; [by vm_compute|].
  intros [category H].
  assert (py "business" = category) as H1.
  { apply (H _ (1 # 5)%Q); by vm_compute. }
  assert (py "sports" = category) as H2.
  { apply (H _ (1 # 5)%Q); by vm_compute. }
  by rewrite <- H2 in H1.
Qed.

Lemma confidence_is_largest_probability_witness :
  let r := the_answer (classify mock_registry (py "news")) in
  ∃ category,
    category_english r
    = english (CATEGORIES_get category
                 {| english := category; telugu := category |})
    ∧ category_telugu r
      = telugu (CATEGORIES_get category
                  {| english := category; telugu := category |})
    ∧ all_probabilities r !! category = Some (confidence r)
    ∧ (∀ c p, all_probabilities r !! c = Some p → (p <= confidence r)%Q)
    ∧ (collected mock_registry tt (length five_classes) = [] →
       ∀ c p, all_probabilities r !! c = Some p →
              (p == confidence r)%Q → c = category)
    ∧ (collected mock_registry tt (length five_classes) ≠ [] →
       ∃ idx, five_classes !! idx = Some category
              ∧ ∀ j c p, j < idx → five_classes !! j = Some c →
                         all_probabilities r !! c = Some p →
                         (p < confidence r)%Q).
Proof.
  apply (confidence_is_largest_probability py_isspace lower_ascii
           mock_registry (py "news") (λ _, Return tt) five_classes tt).
  - reflexivity.
  - reflexivity.
  - reflexivity.
  - compute_done.
  - vm_compute. reflexivity.
Defined.

(** A stored array is averaged as it is: an entry 2 comes back as a
    "probability" 2. *)
Lemma stored_array_escapes_unit_interval :
  ∃ r p, outcome (classify skewed_registry (py "a")) = Return r
         ∧ all_probabilities r !! py "business" = Some p
         ∧ ¬ in01 p.
Proof.
  exists (the_answer (classify skewed_registry (py "a"))), 2%Q.
  split; [by vm_compute|]. split; [by vm_compute|].
  intros [_ H]. by vm_compute in H.
Qed.

Lemma probabilities_cover_categories_witness :
  let r := the_answer (classify mock_registry (py "news")) in
  dom (all_probabilities r) = list_to_set CATEGORIES_keys
  ∧ map_Forall (λ _ p, in01 p) (all_probabilities r).
Proof.
  apply (probabilities_cover_categories py_isspace lower_ascii
           mock_registry (py "news") (λ _, Return tt) five_classes tt).
  - reflexivity.
  - reflexivity.
  - reflexivity.
  - vm_compute. reflexivity.
  - intros _. reflexivity.
  - repeat constructor; by vm_compute.
Defined.

Lemma fallback_when_nothing_collected_witness :
  let text_lower := lower_ascii (strip py_isspace cricket_film) in
  ∃ category confidence all_probs,
    fallback lower_ascii (strip py_isspace cricket_film)
    = (category, confidence, all_probs)
    ∧ outcome (classify base_registry cricket_film)
      = Return (make_result category confidence all_probs)
    ∧ (mentions sports_words text_lower →
       category = py "sports" ∧ confidence = 0.85%Q)
    ∧ (¬ mentions sports_words text_lower →
       mentions entertainment_words text_lower →
       category = py "entertainment" ∧ confidence = 0.80%Q)
    ∧ (¬ mentions sports_words text_lower →
       ¬ mentions entertainment_words text_lower →
       mentions business_words text_lower →
       category = py "business" ∧ confidence = 0.75%Q)
    ∧ (¬ mentions sports_words text_lower →
       ¬ mentions entertainment_words text_lower →
       ¬ mentions business_words text_lower →
       mentions editorial_words text_lower →
       category = py "editorial" ∧ confidence = 0.70%Q)
    ∧ (¬ mentions sports_words text_lower →
       ¬ mentions entertainment_words text_lower →
       ¬ mentions business_words text_lower →
       ¬ mentions editorial_words text_lower →
       category = py "nation" ∧ confidence = 0.65%Q)
    ∧ all_probs !! category = Some confidence
    ∧ (∀ c, c ∈ CATEGORIES_keys → c ≠ category →
            all_probs !! c = Some 0.05%Q)
    ∧ (∀ c, c ∉ CATEGORIES_keys → all_probs !! c = None)
    ∧ (∀ (models' : gmap string (pyobj unit)) transform' classes' x',
         models' !! "vectorizer" = Some (Vectorizer transform') →
         models' !! "label_encoder" = Some (LabelEncoder classes') →
         transform' (strip py_isspace cricket_film) = Return x' →
         collected models' x' (length classes') = [] →
         outcome (classify models' cricket_film)
         = outcome (classify base_registry cricket_film)).
Proof.
  apply (fallback_when_nothing_collected py_isspace lower_ascii
           base_registry cricket_film (λ _, Return tt) five_classes tt).
  - reflexivity.
  - reflexivity.
  - by vm_compute.
  - reflexivity.
  - reflexivity.
Defined.

(** An object that cannot be called is not skipped: its round adds the
    uniform vector. *)
Lemma inert_model_is_not_skipped :
  inert_registry !! "muril" = Some Inert
  ∧ call_object (Inert : pyobj unit) tt = Raise PyException
  ∧ ¬ skipped inert_registry tt 5 "muril".
Proof.
  split; [reflexivity|]. split; [reflexivity|].
  intros H%skipped_iff. by vm_compute in H.
Qed.

Lemma failed_round_is_skipped_witness :
  skipped failing_registry tt 5 "lgb"
  ∧ ("lgb" ∈ model_names →
     collected failing_registry tt 5
     = collected (delete "lgb" failing_registry) tt 5).
Proof.
  apply (failed_round_is_skipped failing_registry "lgb"
           (Predictor (λ _, Raise PyException)) tt 5).
  - reflexivity.
  - left. exists PyException. reflexivity.
Defined.

(** Two blanks sent before anything is loaded: the answer is 503. *)
Lemma blank_text_on_empty_registry :
  forallb py_isspace (py "  ") = true
  ∧ ¬ status (classify (∅ : gmap string (pyobj unit)) (py "  ")) = 400.
Proof. split; [reflexivity|]. by vm_compute. Qed.

Lemma blank_text_is_rejected_witness :
  (∀ text, EvTransform text ∉ trace (classify base_registry (py "  ")))
  ∧ (ready base_registry → status (classify base_registry (py "  ")) = 400).
Proof.
  apply (blank_text_is_rejected py_isspace lower_ascii base_registry
           (py "  ")).
  reflexivity.
Defined.

Lemma incomplete_registry_gives_503_witness :
  status (classify (∅ : gmap string (pyobj unit)) (py "hello")) = 503.
Proof.
  apply (incomplete_registry_gives_503 py_isspace lower_ascii ∅ (py "hello")).
  left. reflexivity.
Defined.

Lemma two_model_ensemble_witness :
  let ensemble_probs := np_mean (collected mock_registry tt 5) in
  Forall2 Qeq ensemble_probs [0.15; 0.15; 0.15; 0.15; 0.4]%Q
  ∧ np_argmax ensemble_probs = Return 4
  ∧ ∃ r, outcome (classify mock_registry (py "news")) = Return r
         ∧ (confidence r == 0.4)%Q
         ∧ r = make_result (py "sports") (confidence r)
                 (dict_of (zip five_classes ensemble_probs)).
Proof.
  apply (two_model_ensemble py_isspace lower_ascii mock_registry (py "news")
           (λ _, Return tt) (py "business") (py "editorial")
           (py "entertainment") (py "nation") (py "sports") tt).
  - reflexivity.
  - reflexivity.
  - by vm_compute.
  - reflexivity.
  - left. reflexivity.
Defined.

Lemma readiness_precedes_text_check_witness :
  classify (∅ : gmap string (pyobj unit)) (py " ")
  = ([], Raise (HTTPException 503))
  ∧ status (classify (∅ : gmap string (pyobj unit)) (py " ")) ≠ 400.
Proof.
  apply (readiness_precedes_text_check py_isspace lower_ascii ∅ (py " ")).
  - left. reflexivity.
  - reflexivity.
Defined.

Lemma failed_call_yields_uniform_vector_witness :
  let num_classes := length five_classes in
  get_predictions inert_registry Inert tt
  = Return (PArray (uniform num_classes))
  ∧ length (uniform num_classes) = num_classes
  ∧ Forall (λ p, p = (1 / inject_Z (Z.of_nat num_classes))%Q)
      (uniform num_classes)
  ∧ ∀ name, inert_registry !! name = Some Inert →
      (∀ acc, outcome (attempt inert_registry tt num_classes name acc)
              = Return (acc ++ [uniform num_classes]))
      ∧ (name ∈ model_names →
         uniform num_classes ∈ collected inert_registry tt num_classes).
Proof.
  apply (failed_call_yields_uniform_vector inert_registry Inert tt
           five_classes PyException).
  - reflexivity.
  - intros predict_proba. discriminate.
  - intros a. discriminate.
  - reflexivity.
Defined.

(** * Further properties *)

(** ** The endpoint as a whole *)

Section EndpointCases.

Context {feature_vector : Type} (isspace : N → bool) (lower : pystr → pystr).
Implicit Types (models : gmap string (pyobj feature_vector)).

Local Arguments for_models : simpl never.
Local Arguments fallback : simpl never.
Local Arguments ensemble : simpl never.
Local Arguments np_mean : simpl never.
Local Arguments make_result : simpl never.

(** The registry is ready and the text is not blank, but what is stored
    under ['vectorizer'] has no [transform]. *)
Lemma classify_no_transform models input :
  ready models → strip isspace input ≠ [] →
  (∀ transform, models !! "vectorizer" ≠ Some (Vectorizer transform)) →
  classify_text isspace lower models input
  = ([EvTraceback], Raise (HTTPException 500)).
Proof.
  intros Hr Hs Hv. pose proof (ready_keys _ Hr) as Hk.
  destruct Hr as [[o Ho] _].
  unfold classify_text, classify_body. rewrite Hk.
  destruct (strip isspace input) as [|c text]; [done|].
  rewrite Ho. destruct o; try done. by destruct (Hv transform).
Qed.

(** The vectorizer raises. *)
Lemma classify_transform_raises models input transform e :
  ready models → strip isspace input ≠ [] →
  models !! "vectorizer" = Some (Vectorizer transform) →
  transform (strip isspace input) = Raise e →
  classify_text isspace lower models input
  = match e with
    | HTTPException c =>
        ([EvTransform (strip isspace input)], Raise (HTTPException c))
    | PyException =>
        ([EvTransform (strip isspace input); EvTraceback],
         Raise (HTTPException 500))
    end.
Proof.
  intros Hr%ready_keys Hs Hv Ht.
  unfold classify_text, classify_body. rewrite Hr.
  destruct (strip isspace input) as [|c text]; [done|].
  rewrite Hv, !bind_unfold. simpl. rewrite Ht. by destruct e.
Qed.

(** The vectorizer succeeds, but what is stored under ['label_encoder'] has
    no [classes_]. *)
Lemma classify_no_classes models input transform x :
  ready models → strip isspace input ≠ [] →
  models !! "vectorizer" = Some (Vectorizer transform) →
  transform (strip isspace input) = Return x →
  (∀ classes, models !! "label_encoder" ≠ Some (LabelEncoder classes)) →
  classify_text isspace lower models input
  = ([EvTransform (strip isspace input); EvTraceback],
     Raise (HTTPException 500)).
Proof.
  intros Hr Hs Hv Ht Hl. pose proof (ready_keys _ Hr) as Hk.
  destruct Hr as [_ [o Ho]].
  unfold classify_text, classify_body. rewrite Hk.
  destruct (strip isspace input) as [|c text]; [done|].
  rewrite Hv, !bind_unfold. simpl. rewrite Ht. simpl.
  unfold label_encoder_classes. rewrite Ho.
  destruct o; try done. by destruct (Hl classes_).
Qed.

(** Past the label encoder: the whole run, trace and outcome. *)
Lemma classify_past_loop models input transform classes x :
  models !! "vectorizer" = Some (Vectorizer transform) →
  models !! "label_encoder" = Some (LabelEncoder classes) →
  strip isspace input ≠ [] →
  transform (strip isspace input) = Return x →
  classify_text isspace lower models input
  = match answer_past_loop lower classes (strip isspace input)
            (collected models x (length classes)) with
    | Some r =>
        (EvTransform (strip isspace input)
           :: concat (printed models x <$> model_names),
         Return r)
    | None =>
        (EvTransform (strip isspace input)
           :: concat (printed models x <$> model_names) ++ [EvTraceback],
         Raise (HTTPException 500))
    end.
Proof.
  intros Hv Hl Hs Ht.
  destruct (decide (collected models x (length classes) = [])) as [Hc|Hc].
  { rewrite (classify_fallback _ _ _ _ _ _ _ Hv Hl Hs Ht Hc), Hc.
    unfold answer_past_loop.
    by destruct (fallback lower (strip isspace input)) as [[? ?] ?]. }
  assert (ready models) as Hr%ready_keys by (split; eauto).
  unfold classify_text, classify_body. rewrite Hr.
  destruct (strip isspace input) as [|c text] eqn:E; [done|].
  rewrite Hv. unfold label_encoder_classes. rewrite Hl.
  rewrite !bind_unfold. simpl. rewrite Ht. simpl.
  rewrite for_models_eq. fold (collected models x (length classes)).
  simpl.
  destruct (collected models x (length classes)) as [|v preds] eqn:Ec;
    [done|].
  unfold answer_past_loop, ensemble_answer.
  unfold ensemble, inverse_transform, getitem, label_encoder_classes.
  rewrite Hl. rewrite !bind_unfold.
  unfold np_argmax.
  destruct (np_mean (v :: preds)) as [|p probs]; simpl.
  { by rewrite !app_nil_r. }
  generalize (argmax_from 0 p 1 probs). intros idx.
  destruct (classes !! idx) as [category|]; simpl;
    [|by rewrite !app_nil_r].
  destruct ((p :: probs) !! idx) as [conf|]; simpl; by rewrite !app_nil_r.
Qed.

(** Every run of the endpoint is one of six. *)
Lemma classify_text_cases models input :
  let text := strip isspace input in
  let run := classify_text isspace lower models input in
  (¬ ready models ∧ run = ([], Raise (HTTPException 503)))
  ∨ (ready models ∧ text = [] ∧ run = ([], Raise (HTTPException 400)))
  ∨ (ready models ∧ text ≠ []
     ∧ run = ([EvTraceback], Raise (HTTPException 500)))
  ∨ (∃ transform c,
       models !! "vectorizer" = Some (Vectorizer transform)
       ∧ transform text = Raise (HTTPException c)
       ∧ ready models ∧ text ≠ []
       ∧ run = ([EvTransform text], Raise (HTTPException c)))
  ∨ (ready models ∧ text ≠ []
     ∧ run = ([EvTransform text; EvTraceback], Raise (HTTPException 500)))
  ∨ (∃ transform classes x,
       models !! "vectorizer" = Some (Vectorizer transform)
       ∧ models !! "label_encoder" = Some (LabelEncoder classes)
       ∧ text ≠ [] ∧ transform text = Return x
       ∧ run = match answer_past_loop lower classes text
                       (collected models x (length classes)) with
               | Some r =>
                   (EvTransform text
                      :: concat (printed models x <$> model_names),
                    Return r)
               | None =>
                   (EvTransform text
                      :: concat (printed models x <$> model_names)
                      ++ [EvTraceback],
                    Raise (HTTPException 500))
               end).
Proof.
  intros text run. subst run.
  destruct (decide (ready models)) as [Hr|Hr];
    [|left; split; [done|by apply classify_not_ready]].
  right. destruct (decide (text = [])) as [Hs|Hs];
    [left; split; [done|]; split; [done|by apply classify_blank]|].
  right.
  destruct (models !! "vectorizer") as [o|] eqn:Hv;
    [|destruct Hr as [[? ?] _]; congruence].
  assert ((∃ transform, o = Vectorizer transform)
          ∨ ∀ transform, o ≠ Vectorizer transform) as [[transform ->]|Ho].
  { destruct o; eauto. }
  2:{ left. repeat (split; [done|]). apply classify_no_transform; try done.
      rewrite Hv. intros transform [= ->]. by destruct (Ho transform). }
  right. destruct (transform text) as [e|x] eqn:Ht.
  { pose proof (classify_transform_raises _ _ _ _ Hr Hs Hv Ht) as H.
    destruct e as [c|]; [left; exists transform, c|right; left];
      by rewrite H. }
  right.
  destruct (models !! "label_encoder") as [o|] eqn:Hl;
    [|destruct Hr as [_ [? ?]]; congruence].
  assert ((∃ classes, o = LabelEncoder classes)
          ∨ ∀ classes, o ≠ LabelEncoder classes) as [[classes ->]|Ho].
  { destruct o; eauto. }
  2:{ left. repeat (split; [done|]).
      apply (classify_no_classes _ _ _ _ Hr Hs Hv Ht).
      rewrite Hl. intros classes [= ->]. by destruct (Ho classes). }
  right. exists transform, classes, x. repeat (split; [done|]).
  exact (classify_past_loop _ _ _ _ _ Hv Hl Hs Ht).
Qed.

End EndpointCases.

(** ** Stripping twice *)

Section StripTwice.

Variable isspace : N → bool.

Lemma lstrip_idemp s : lstrip isspace (lstrip isspace s) = lstrip isspace s.
Proof.
  induction s as [|c s IH]; simpl; [done|].
  destruct (isspace c) eqn:E; [done|]. simpl. by rewrite E.
Qed.

Lemma lstrip_keeps_last w c :
  isspace c = false → ∃ w', lstrip isspace (w ++ [c]) = w' ++ [c].
Proof.
  intros Hc. induction w as [|d w [w' IH]]; simpl.
  - rewrite Hc. by exists [].
  - destruct (isspace d); [eauto|]. by exists (d :: w).
Qed.

Lemma lstrip_strip s : lstrip isspace (strip isspace s) = strip isspace s.
Proof.
  unfold strip, rstrip.
  destruct (lstrip isspace s) as [|c s'] eqn:E; [done|].
  pose proof (lstrip_head _ _ _ _ E) as Hc.
  rewrite reverse_cons.
  destruct (lstrip_keeps_last (reverse s') c Hc) as [w' ->].
  rewrite reverse_app. simpl. by rewrite Hc.
Qed.

Lemma strip_idemp s : strip isspace (strip isspace s) = strip isspace s.
Proof.
  unfold strip at 1. rewrite lstrip_strip.
  unfold strip, rstrip. by rewrite reverse_involutive, lstrip_idemp.
Qed.

End StripTwice.

(** ** What the loop prints *)

Section PrintFacts.

Context {feature_vector : Type}.
Implicit Types (models : gmap string (pyobj feature_vector)).



Lemma transform_calls_cons text (tr : list event) :
  transform_calls (EvTransform text :: tr) = text :: transform_calls tr.
Proof. reflexivity. Qed.

Lemma transform_calls_app (tr tr' : list event) :
  transform_calls (tr ++ tr') = transform_calls tr ++ transform_calls tr'.
Proof. apply omap_app. Qed.

Lemma transform_calls_loop models (x : feature_vector) :
  transform_calls (concat (printed models x <$> model_names)) = [].
Proof.
  unfold transform_calls, model_names, printed. simpl.
  repeat (destruct (models !! _) as [?|]; simpl;
          [destruct (get_predictions _ _ _); simpl|]); done.
Qed.


End PrintFacts.

Section Further.

Context {feature_vector : Type} (isspace : N → bool) (lower : pystr → pystr).
Implicit Types (models : gmap string (pyobj feature_vector)).


(** X2. In one run the vectorizer is called at most once, and then on the
    stripped text, which is not empty, with the registry ready. *)
Theorem vectorizer_called_at_most_once models input :
  transform_calls (trace (classify_text isspace lower models input)) = []
  ∨ (transform_calls (trace (classify_text isspace lower models input))
     = [strip isspace input]
     ∧ strip isspace input ≠ [] ∧ ready models).
Proof.
  destruct (classify_text_cases isspace lower models input)
    as [[_ ->]|[(_ & _ & ->)|[(_ & _ & ->)|[(tr & c & _ & _ & ? & ? & ->)|[(? & ? & ->)|
        (transform & classes & x & Hv & Hl & ? & _ & ->)]]]]].
  1-3: by left.
  1-2: by right.
  right. assert (ready models) by (split; eauto).
  split; [|done].
  destruct (answer_past_loop _ _ _ _); unfold trace; cbn [fst].
  - by rewrite transform_calls_cons, transform_calls_loop.
  - by rewrite transform_calls_cons, transform_calls_app,
      transform_calls_loop.
Qed.

(** X3. White space around the text changes nothing: the run on a text is
    the run on the stripped text, trace and outcome. *)
Theorem surrounding_whitespace_is_ignored models input :
  classify_text isspace lower models (strip isspace input)
  = classify_text isspace lower models input.
Proof.
  unfold classify_text, classify_body. by rewrite strip_idemp.
Qed.

(** X4. A run that ends with status 400 and has not called the vectorizer
    is the run of a blank text on a ready registry, and conversely. *)
Theorem empty_text_error_iff models input :
  classify_text isspace lower models input = ([], Raise (HTTPException 400))
  ↔ ready models ∧ forallb isspace input = true.
Proof.
  rewrite <- strip_nil_iff. split.
  - intros H.
    destruct (classify_text_cases isspace lower models input)
      as [[_ E]|[(? & ? & _)|[(_ & _ & E)|[(tr & c & _ & _ & _ & _ & E)|[(_ & _ & E)|
          (transform & classes & x & _ & _ & _ & _ & E)]]]]];
      try done; rewrite E in H; try done.
    by destruct (answer_past_loop _ _ _ _).
  - intros [Hr Hs]. by apply classify_blank.
Qed.


End Further.

Section FurtherAnswers.

Context {feature_vector : Type} (isspace : N → bool) (lower : pystr → pystr).
Implicit Types (models : gmap string (pyobj feature_vector)).





(** X7. In an answer of the ensemble the keys of [all_probabilities] are
    the classes of the label encoder, whatever they are, and a class that
    occurs once in the class list is mapped to the mean of the collected
    vectors at its index. *)
Theorem ensemble_probabilities_follow_classes models input transform classes
    (x : feature_vector) r :
  models !! "vectorizer" = Some (Vectorizer transform) →
  models !! "label_encoder" = Some (LabelEncoder classes) →
  transform (strip isspace input) = Return x →
  collected models x (length classes) ≠ [] →
  outcome (classify_text isspace lower models input) = Return r →
  dom (all_probabilities r) = list_to_set classes
  ∧ (NoDup classes →
     ∀ i c, classes !! i = Some c →
            all_probabilities r !! c
            = np_mean (collected models x (length classes)) !! i).
Proof.
  intros Hv Hl Ht Hc Hr.
  destruct (classify_ok_inv _ _ _ _ _ Hr)
    as (transform' & classes' & x' & _ & _ & Hs & _).
  rewrite (classify_ensemble _ _ _ _ _ _ _ Hv Hl Hs Ht Hc) in Hr.
  cbn zeta in Hr.
  pose proof (collected_length models x (length classes)) as Hlen.
  apply (np_mean_length _ _ Hc) in Hlen.
  set (probs := np_mean (collected models x (length classes))) in *.
  destruct (np_argmax probs) as [e|idx]; [done|].
  destruct (classes !! idx) as [category|]; [|done].
  destruct (probs !! idx) as [conf|]; [|done].
  injection Hr as <-. cbn [all_probabilities make_result]. split.
  - by rewrite dict_of_dom, fst_zip by lia.
  - intros Hnd i c Hi.
    destruct (lookup_lt_is_Some_2 probs i) as [p Hp].
    { apply lookup_lt_Some in Hi. lia. }
    rewrite Hp. apply dict_of_member.
    + by rewrite fst_zip by lia.
    + apply list_elem_of_lookup. exists i.
      apply lookup_zip_with_Some. eauto.
Qed.

End FurtherAnswers.

(** ** Sums of probabilities *)

Lemma qsum_zip_plus (r r' : list Q) :
  length r = length r' →
  (qsum (zip_with Qplus r r') == qsum r + qsum r')%Q.
Proof.
  revert r'. induction r as [|a r IH]; intros [|b r'] Hlen; simpl in *;
    try done.
  rewrite IH by lia. ring.
Qed.

Lemma qsum_foldl_zip (rs : list (list Q)) : ∀ (r : list Q),
  Forall (λ v, length v = length r) rs →
  (qsum (foldl (zip_with Qplus) r rs) == qsum r + qsum (qsum <$> rs))%Q.
Proof.
  induction rs as [|r' rs IH]; intros r Hlen; simpl.
  - ring.
  - apply Forall_cons in Hlen as [Hr' Hrs].
    rewrite IH.
    + rewrite qsum_zip_plus by done.
      change (list_fmap (list Q) Q qsum rs) with (qsum <$> rs).
      by rewrite Qplus_assoc.
    + rewrite length_zip_with, Hr', Nat.min_id. done.
Qed.

Lemma qsum_scale (k : Q) (l : list Q) :
  (qsum ((λ s, s / k) <$> l) == qsum l / k)%Q.
Proof.
  induction l as [|a l IH]; simpl.
  - unfold Qdiv. ring.
  - rewrite IH. unfold Qdiv. ring.
Qed.

Lemma qsum_ones (rs : list (list Q)) :
  Forall (λ v, qsum v == 1)%Q rs →
  (qsum (qsum <$> rs) == inject_Z (Z.of_nat (length rs)))%Q.
Proof.
  induction 1 as [|v rs Hv _ IH].
  - reflexivity.
  - cbn [fmap list_fmap qsum foldr length].
    change (foldr Qplus 0%Q (list_fmap _ _ qsum rs)) with (qsum (qsum <$> rs)).
    rewrite IH, Hv, Nat2Z.inj_succ, <- Z.add_1_r, inject_Z_plus.
    change (inject_Z 1) with 1%Q. ring.
Qed.

(** The mean of vectors of one length that each sum to 1 sums to 1. *)
Lemma np_mean_sums_to_one rows n :
  rows ≠ [] → Forall (λ v, length v = n) rows →
  Forall (λ v, qsum v == 1)%Q rows →
  (qsum (np_mean rows) == 1)%Q.
Proof.
  destruct rows as [|r rs]; [done|].
  intros _ [Hr Hrs]%Forall_cons [Hr1 Hrs1]%Forall_cons.
  unfold np_mean. rewrite qsum_scale, qsum_foldl_zip.
  2:{ eapply Forall_impl; [exact Hrs|]. simpl. congruence. }
  rewrite Hr1, (qsum_ones _ Hrs1).
  cbn [length]. rewrite Nat2Z.inj_succ, <- Z.add_1_r, inject_Z_plus.
  change (inject_Z 1) with 1%Q.
  set (k := inject_Z (Z.of_nat (length rs))).
  assert (0 <= k)%Q.
  { unfold k. change 0%Q with (inject_Z 0). rewrite <- Zle_Qle. lia. }
  field. lra.
Qed.

Section FurtherSums.

Context {feature_vector : Type} (isspace : N → bool) (lower : pystr → pystr).
Implicit Types (models : gmap string (pyobj feature_vector)).

(** The values of [all_probabilities] in an answer of the ensemble, read in
    the order of a repetition-free class list, are the means. *)
Lemma ensemble_values models input transform classes (x : feature_vector) r :
  models !! "vectorizer" = Some (Vectorizer transform) →
  models !! "label_encoder" = Some (LabelEncoder classes) →
  transform (strip isspace input) = Return x →
  collected models x (length classes) ≠ [] →
  NoDup classes →
  outcome (classify_text isspace lower models input) = Return r →
  (λ c, default 0%Q (all_probabilities r !! c)) <$> classes
  = np_mean (collected models x (length classes)).
Proof.
  intros Hv Hl Ht Hc Hnd Hr.
  destruct (classify_ok_inv _ _ _ _ _ Hr)
    as (transform' & classes' & x' & _ & _ & Hs & _).
  rewrite (classify_ensemble _ _ _ _ _ _ _ Hv Hl Hs Ht Hc) in Hr.
  cbn zeta in Hr.
  pose proof (collected_length models x (length classes)) as Hlen.
  apply (np_mean_length _ _ Hc) in Hlen.
  set (probs := np_mean (collected models x (length classes))) in *.
  destruct (np_argmax probs) as [e|idx]; [done|].
  destruct (classes !! idx) as [category|]; [|done].
  destruct (probs !! idx) as [conf|]; [|done].
  injection Hr as <-. cbn [all_probabilities make_result].
  apply list_eq. intros i. rewrite list_lookup_fmap.
  destruct (classes !! i) as [c|] eqn:Hi; simpl.
  - destruct (lookup_lt_is_Some_2 probs i) as [p Hp].
    { apply lookup_lt_Some in Hi. lia. }
    rewrite Hp. f_equal.
    rewrite (dict_of_member (zip classes probs) c p); [done| |].
    + by rewrite fst_zip by lia.
    + apply list_elem_of_lookup. exists i.
      apply lookup_zip_with_Some. eauto.
  - symmetry. apply lookup_ge_None. apply lookup_ge_None in Hi. lia.
Qed.

(** X8. When every collected vector sums to 1, so do the values of
    [all_probabilities] in the answer of the ensemble, the label encoder
    listing each class once: averaging keeps a distribution a
    distribution. *)
Theorem ensemble_of_distributions_sums_to_one models input transform classes
    (x : feature_vector) r :
  models !! "vectorizer" = Some (Vectorizer transform) →
  models !! "label_encoder" = Some (LabelEncoder classes) →
  transform (strip isspace input) = Return x →
  collected models x (length classes) ≠ [] →
  NoDup classes →
  outcome (classify_text isspace lower models input) = Return r →
  Forall (λ v, qsum v == 1)%Q (collected models x (length classes)) →
  (qsum ((λ c, default 0%Q (all_probabilities r !! c)) <$> classes) == 1)%Q.
Proof.
  intros Hv Hl Ht Hc Hnd Hr H1.
  rewrite (ensemble_values _ _ _ _ _ _ Hv Hl Ht Hc Hnd Hr).
  eapply np_mean_sums_to_one; [done| |done].
  apply collected_length.
Qed.

(** X9. The probabilities of the fallback are not a distribution: over the
    five categories they sum to the confidence plus 0.20, which is 1 only
    when the category is entertainment. *)
Theorem fallback_sum text category confidence all_probs :
  fallback lower text = (category, confidence, all_probs) →
  let total :=
    qsum ((λ c, default 0%Q (all_probs !! c)) <$> CATEGORIES_keys) in
  (total == confidence + 0.20)%Q
  ∧ ((total == 1)%Q ↔ category = py "entertainment").
Proof.
  rewrite fallback_eq. intros [= <- <- <-].
  pose proof (keyword_match_cases (lower text)) as H.
  destruct (keyword_match (lower text)) as [category conf].
  cbn [fst snd].
  repeat (apply elem_of_cons in H as [[= -> ->]|H];
          [by vm_compute|]).
  by apply elem_of_nil in H.
Qed.

End FurtherSums.

(** ** Models that do not look at the text *)

Section FurtherBlind.

Context {feature_vector : Type} (isspace : N → bool) (lower : pystr → pystr).
Implicit Types (models : gmap string (pyobj feature_vector)).

Lemma get_predictions_blind models model (x x' : feature_vector) :
  text_blind model →
  get_predictions models model x = get_predictions models model x'.
Proof. by destruct model. Qed.

Lemma contribution_blind models (x x' : feature_vector) n name :
  (∀ model, models !! name = Some model → text_blind model) →
  contribution models x n name = contribution models x' n name.
Proof.
  intros H. unfold contribution.
  destruct (models !! name) as [model|]; [|done].
  by rewrite (get_predictions_blind _ _ x x') by auto.
Qed.

(** X10. When the three model names hold nothing but stored arrays and
    objects that are neither predictors nor callable, the vectors of the
    ensemble and hence the whole answer do not depend on the text: any two
    texts the vectorizer accepts get the same answer, as soon as one vector
    is collected. *)
Theorem stored_arrays_ignore_the_text models input input' transform classes
    (x x' : feature_vector) :
  models !! "vectorizer" = Some (Vectorizer transform) →
  models !! "label_encoder" = Some (LabelEncoder classes) →
  (∀ name model, name ∈ model_names → models !! name = Some model →
                 text_blind model) →
  strip isspace input ≠ [] → transform (strip isspace input) = Return x →
  strip isspace input' ≠ [] → transform (strip isspace input') = Return x' →
  collected models x (length classes) ≠ [] →
  outcome (classify_text isspace lower models input)
  = outcome (classify_text isspace lower models input').
Proof.
  intros Hv Hl Hb Hs Ht Hs' Ht' Hc.
  assert (collected models x' (length classes)
          = collected models x (length classes)) as Hcc.
  { unfold collected, model_names. simpl.
    rewrite !(contribution_blind models x' x); [done|..];
      intros model; apply Hb; repeat first [by left | right]. }
  rewrite (classify_ensemble _ _ _ _ _ _ _ Hv Hl Hs Ht Hc).
  rewrite <- Hcc in Hc.
  rewrite (classify_ensemble _ _ _ _ _ _ _ Hv Hl Hs' Ht' Hc).
  by rewrite Hcc.
Qed.

End FurtherBlind.

(** ** Start-up and the status endpoints *)

(** The six ways start-up can go. *)
Ltac startup_cases joblib_load :=
  unfold registry_after_startup, load_models; cbn zeta;
  destruct (joblib_load "models/tfidf_vectorizer.pkl") as [?|?o] eqn:?E;
    [|destruct (joblib_load "models/label_encoder.pkl") as [?|?o] eqn:?E;
      [|destruct (joblib_load "models/muril_model.pkl") as [?|?o] eqn:?E;
        [|destruct (joblib_load "models/bilstm_model.pkl") as [?|?o] eqn:?E;
          [|destruct (joblib_load "models/lgb_model.pkl")
              as [?|?o] eqn:?E]]]].

Section FurtherStartup.

Context {feature_vector : Type} (isspace : N → bool) (lower : pystr → pystr).
Implicit Types (models : gmap string (pyobj feature_vector)).
Implicit Types (joblib_load : string → result (pyobj feature_vector)).

(** X11. Start-up fills the registry in the order vectorizer, label
    encoder, muril, bilstm, lgb and stops at the first load that fails: a
    key is present only when every earlier key is, and no other key is ever
    stored. In particular a classifier is present only in a ready
    registry. *)
Theorem startup_keys_form_a_prefix joblib_load :
  let models := registry_after_startup joblib_load in
  (is_Some (models !! "lgb") → is_Some (models !! "bilstm"))
  ∧ (is_Some (models !! "bilstm") → is_Some (models !! "muril"))
  ∧ (is_Some (models !! "muril") → is_Some (models !! "label_encoder"))
  ∧ (is_Some (models !! "label_encoder") → is_Some (models !! "vectorizer"))
  ∧ (∀ k, is_Some (models !! k) →
          k ∈ ["vectorizer"; "label_encoder"; "muril"; "bilstm"; "lgb"]).
Proof.
  startup_cases joblib_load.
  all: repeat apply conj.
  all: try (intros _; by simplify_map_eq).
  all: try (intros [? H]; by simplify_map_eq).
  all: intros k H;
       repeat (apply lookup_insert_is_Some' in H as [<-|H];
               [repeat first [by left | right]|]);
       by apply lookup_empty_is_Some in H.
Qed.


Lemma startup_size joblib_load :
  let models := registry_after_startup joblib_load in
  2 ≤ size models ↔ ready models.
Proof.
  unfold ready. startup_cases joblib_load.
  all: rewrite ?map_size_insert_None, ?map_size_empty by (by simplify_map_eq).
  all: split.
  all: first [ intros [[? H1] [? H2]]; first [lia | by simplify_map_eq]
             | intros Hle; first [lia | split; eexists; by simplify_map_eq] ].
Qed.

(** X13. After start-up [GET /health] and [GET /] report
    [models_loaded = false] exactly when [POST /classify] answers every
    text with 503. *)
Theorem not_loaded_iff_always_503 joblib_load :
  let models := registry_after_startup joblib_load in
  (models_loaded (health_check models) = false
   ↔ ∀ input, status (classify_text isspace lower models input) = 503)
  ∧ models_loaded (root models) = models_loaded (health_check models).
Proof.
  intros models. split; [|done].
  unfold health_check. cbn [models_loaded].
  rewrite bool_decide_eq_false. subst models. rewrite startup_size.
  split.
  - intros Hr input. by rewrite classify_not_ready.
  - intros H Hr. specialize (H []).
    by rewrite classify_blank in H.
Qed.

End FurtherStartup.

(** ** The display names and the loop *)

Section FurtherRest.

Context {feature_vector : Type}.
Implicit Types (models : gmap string (pyobj feature_vector)).

(** X14. A category that is not configured is shown under its raw code, in
    both languages; a configured one is shown under the two names of its
    entry, and its English name is never the code itself. *)
Theorem display_names_of_a_category category confidence all_probs :
  let r := make_result category confidence all_probs in
  (category ∉ CATEGORIES_keys →
   category_english r = category ∧ category_telugu r = category)
  ∧ (category ∈ CATEGORIES_keys →
     ∃ info, (category, info) ∈ CATEGORIES
             ∧ category_english r = english info
             ∧ category_telugu r = telugu info
             ∧ category_english r ≠ category).
Proof.
  unfold make_result, CATEGORIES_get. cbn zeta.
  destruct (list_find (λ kv, kv.1 = category) CATEGORIES)
    as [[i [k info]]|] eqn:E.
  - apply list_find_Some in E as (Hi & Hk & _). simpl in Hk. subst k.
    apply list_elem_of_lookup_2 in Hi. split.
    + intros Hn. destruct Hn. unfold CATEGORIES_keys.
      apply list_elem_of_fmap. by exists (category, info).
    + intros _. exists info. repeat (split; [done|]). cbn [snd].
      unfold CATEGORIES in Hi.
      repeat (apply elem_of_cons in Hi as [[= -> ->]|Hi]; [by vm_compute|]).
      by apply elem_of_nil in Hi.
  - apply list_find_None in E. split; [done|].
    intros Hin. unfold CATEGORIES_keys in Hin.
    apply list_elem_of_fmap in Hin as ([k info] & -> & Hin).
    eapply Forall_forall in E; [|exact Hin]. by destruct E.
Qed.


End FurtherRest.

(** ** Start-up and classification together *)

Section FurtherDegrade.

Context {feature_vector : Type} (isspace : N → bool) (lower : pystr → pystr).
Implicit Types (models : gmap string (pyobj feature_vector)).
Implicit Types (joblib_load : string → result (pyobj feature_vector)).

(** X16. When the load of the first classifier fails at start-up, no
    classifier is in the registry, even if the files of the other two are
    in order, and every answer of [/classify] is the answer of the
    fallback. *)
Theorem first_classifier_gates_the_ensemble joblib_load e input r :
  joblib_load "models/muril_model.pkl" = Raise e →
  let models := registry_after_startup joblib_load in
  outcome (classify_text isspace lower models input) = Return r →
  (∀ name, name ∈ model_names → models !! name = None)
  ∧ r = (let '(category, confidence, all_probs) :=
               fallback lower (strip isspace input) in
         make_result category confidence all_probs).
Proof.
  intros Hm models Hr.
  assert (∀ name, name ∈ model_names → models !! name = None) as Hnone.
  { subst models. unfold model_names. intros name.
    rewrite !elem_of_cons, elem_of_nil. clear Hr.
    startup_cases joblib_load; try congruence.
    all: intros [->|[->|[->|[]]]]; by simplify_map_eq. }
  split; [done|].
  destruct (classify_ok_inv _ _ _ _ _ Hr)
    as (transform & classes & x & Hv & Hl & Hs & Ht).
  assert (collected models x (length classes) = []) as Hc.
  { unfold collected, model_names, contribution. simpl.
    rewrite !Hnone; [done|..]; unfold model_names;
      repeat first [by left | right]. }
  rewrite (classify_fallback _ _ _ _ _ _ _ Hv Hl Hs Ht Hc) in Hr.
  by injection Hr as <-.
Qed.


End FurtherDegrade.

(** ** The further properties at concrete inputs *)



Lemma ensemble_probabilities_follow_classes_witness :
  let r := the_answer (classify mock_registry (py "news")) in
  dom (all_probabilities r) = list_to_set five_classes
  ∧ (NoDup five_classes →
     ∀ i c, five_classes !! i = Some c →
            all_probabilities r !! c
            = np_mean (collected mock_registry tt (length five_classes))
              !! i).
Proof.
  apply (ensemble_probabilities_follow_classes py_isspace lower_ascii
           mock_registry (py "news") (λ _, Return tt) five_classes tt).
  - reflexivity.
  - reflexivity.
  - reflexivity.
  - by vm_compute.
  - vm_compute. reflexivity.
Defined.

Lemma ensemble_of_distributions_sums_to_one_witness :
  let r := the_answer (classify mock_registry (py "news")) in
  (qsum ((λ c, default 0%Q (all_probabilities r !! c)) <$> five_classes)
   == 1)%Q.
Proof.
  apply (ensemble_of_distributions_sums_to_one py_isspace lower_ascii
           mock_registry (py "news") (λ _, Return tt) five_classes tt).
  - reflexivity.
  - reflexivity.
  - reflexivity.
  - by vm_compute.
  - compute_done.
  - vm_compute. reflexivity.
  - repeat constructor; by vm_compute.
Defined.

Lemma fallback_sum_witness :
  let all_probs := (fallback lower_ascii cricket_film).2 in
  let total :=
    qsum ((λ c, default 0%Q (all_probs !! c)) <$> CATEGORIES_keys) in
  (total == 0.85 + 0.20)%Q
  ∧ ((total == 1)%Q ↔ py "sports" = py "entertainment").
Proof.
  apply (fallback_sum lower_ascii cricket_film (py "sports") 0.85%Q
           (fallback lower_ascii cricket_film).2).
  vm_compute. reflexivity.
Defined.

Lemma stored_arrays_ignore_the_text_witness :
  outcome (classify skewed_registry (py "cricket"))
  = outcome (classify skewed_registry (py "cinema")).
Proof.
  apply (stored_arrays_ignore_the_text py_isspace lower_ascii skewed_registry
           (py "cricket") (py "cinema") (λ _, Return tt) five_classes tt tt).
  - reflexivity.
  - reflexivity.
  - intros name model. unfold model_names.
    rewrite !elem_of_cons, elem_of_nil.
    intros [->|[->|[->|[]]]]; vm_compute; by intros [= <-].
  - by vm_compute.
  - reflexivity.
  - by vm_compute.
  - reflexivity.
  - by vm_compute.
Defined.

Lemma first_classifier_gates_the_ensemble_witness :
  let models := registry_after_startup two_file_store in
  let r := the_answer (classify models (py "news")) in
  (∀ name, name ∈ model_names → models !! name = None)
  ∧ r = (let '(category, confidence, all_probs) :=
               fallback lower_ascii (strip py_isspace (py "news")) in
         make_result category confidence all_probs).
Proof.
  apply (first_classifier_gates_the_ensemble py_isspace lower_ascii
           two_file_store PyException (py "news")).
  - reflexivity.
  - vm_compute. reflexivity.
Defined.

